(** * STBLN: a shape-and-effect model of [model/stbln.py]

    The network of [model/stbln.py] is a composition of calls into the
    PyTorch runtime.  This development embeds the Python code shallowly:

    - a tensor is its [size] (a list of integers, exactly what
      [x.size()] returns) together with an abstract payload [values];
      the size arithmetic and every size check of the runtime is written
      out, the numerical kernels are the fields of the class [Kernels];
    - a call that can raise returns a [result];
    - [forward] methods run in a small state-and-exception monad [M]: the
      state is the module object itself (its buffers are updated in place
      by the runtime) together with the state of the random generator;
    - a learnable parameter is recorded by its size and by the initializer
      that was last applied to it.

    Every module that has a mode carries its own [training] flag, set by
    [train]; a new module is in training mode.  Device placement and
    memory layout are not part of the model: a tensor handed to [view] is
    taken to be contiguous, as it is at every call site here.

    The size checks of the layers are those the runtime applies to a
    batched input that has elements.  A tensor with a size 0 on some axis
    is outside the model: the runtime returns it from a normalization or
    a convolution before these checks are reached. *)

From Stdlib Require Import ZArith QArith List String Bool Lia DecimalString.
Import ListNotations.
Local Open Scope Z_scope.

(** ** Exceptions and results *)

Inductive error : Type :=
| ValueError_unpack            (* a, b, ... = x.size() on another rank *)
| RuntimeError_permute
| RuntimeError_view
| RuntimeError_matmul
| IndexError_index
| RuntimeError_conv2d_dim      (* input is not 4-dimensional *)
| RuntimeError_conv2d_channels (* input channels differ from weight.size(1) *)
| RuntimeError_conv2d_kernel   (* kernel larger than the padded input *)
| ValueError_batch_norm_dim    (* _check_input_dim *)
| ValueError_batch_norm_size   (* expected more than 1 value per channel *)
| RuntimeError_batch_norm      (* running_mean should contain C elements *)
| RuntimeError_broadcast
| RuntimeError_linear
| TypeError_None
| KeyError
| ZeroDivisionError
| ValueError_math_domain
| ValueError_negative_dimensions. (* np.random.rand with a negative size *)

Inductive result (A : Type) : Type :=
| Ok (a : A)
| Raise (e : error).
Arguments Ok {A} a.
Arguments Raise {A} e.

Definition rbind {A B : Type} (r : result A) (f : A -> result B) : result B :=
  match r with
  | Ok a => f a
  | Raise e => Raise e
  end.

Notation "x <~ r ;; k" := (rbind r (fun x => k))
  (at level 100, r at next level, right associativity).

Definition is_ok {A : Type} (r : result A) : bool :=
  match r with Ok _ => true | Raise _ => false end.

(** Python's [range(n)] and [str(i)]. *)
Definition range (n : Z) : list Z := map Z.of_nat (seq 0 (Z.to_nat n)).
Definition str (z : Z) : string := NilZero.string_of_int (Z.to_int z).

(** A [for] loop whose body may raise. *)
Fixpoint for_ {A B : Type} (l : list A) (body : A -> B -> result B) (acc : B)
  : result B :=
  match l with
  | [] => Ok acc
  | a :: l' => acc' <~ body a acc ;; for_ l' body acc'
  end.

(** ** [import_class] *)

Section ImportClass.
Variable obj : Type.
(** [__import__(name)] and [getattr(mod, comp)] of the interpreter. *)
Variable import_ : string -> result obj.
Variable getattr : obj -> string -> result obj.

(** The separator of [name.split('.')]. *)
Definition dot : Ascii.ascii := Ascii.ascii_of_nat 46.

(** [name.split('.')] *)
Fixpoint split_dot (s : string) : list string :=
  match s with
  | EmptyString => [EmptyString]
  | String c s' =>
      if Ascii.eqb c dot then EmptyString :: split_dot s'
      else match split_dot s' with
           | h :: t => String c h :: t
           | [] => [String c EmptyString]
           end
  end.

Definition import_class (name : string) : result obj :=
  let components := split_dot name in
  c0 <~ match nth_error components 0 with
        | Some c => Ok c
        | None => Raise IndexError_index
        end ;;
  mod_ <~ import_ c0 ;;
  for_ (tl components) (fun comp mod_ => getattr mod_ comp) mod_.

(** Whether a name contains a dot. *)
Fixpoint has_dot (s : string) : bool :=
  match s with
  | EmptyString => false
  | String c s' => Ascii.eqb c dot || has_dot s'
  end.

End ImportClass.

(** ** Parameters and the stateless layers *)

(** How a parameter obtained its current values.  [normal_ mean r] stands
    for [nn.init.normal_(w, mean, math.sqrt(r))]: the standard deviation is
    the square root of [r], so [r] is the variance. *)
Inductive initializer : Type :=
| library_default
| numpy_random_rand
| kaiming_normal_fan_out
| normal_ (mean : Q) (radicand : Q)
| constant_ (c : Q).

Definition variance (i : initializer) : option Q :=
  match i with
  | normal_ _ r => Some r
  | _ => None
  end.

Record Param : Type := { p_size : list Z; p_init : initializer }.

Definition with_init (i : initializer) (p : Param) : Param :=
  {| p_size := p_size p; p_init := i |}.

(** [t.size(i)] *)
Definition size_at (s : list Z) (i : nat) : result Z :=
  match nth_error s i with
  | Some d => Ok d
  | None => Raise IndexError_index
  end.

Record Conv2d : Type := {
  in_channels : Z;
  out_channels : Z;
  kernel_size : Z * Z;
  stride : Z * Z;
  padding : Z * Z;
  weight : Param;
  bias : Param
}.

Record Linear : Type := {
  in_features : Z;
  out_features : Z;
  l_weight : Param;
  l_bias : Param
}.

Module nn.

(** [nn.Conv2d(in_channels, out_channels, kernel_size, stride, padding)]:
    the weight has size [out, in, kh, kw], the bias has size [out]. *)
Definition Conv2d (cin cout : Z) (k s p : Z * Z) : Conv2d :=
  {| in_channels := cin; out_channels := cout;
     kernel_size := k; stride := s; padding := p;
     weight := {| p_size := [cout; cin; fst k; snd k];
                  p_init := library_default |};
     bias := {| p_size := [cout]; p_init := library_default |} |}.

(** [nn.Linear(in_features, out_features)] *)
Definition Linear (fin fout : Z) : Linear :=
  {| in_features := fin; out_features := fout;
     l_weight := {| p_size := [fout; fin]; p_init := library_default |};
     l_bias := {| p_size := [fout]; p_init := library_default |} |}.

End nn.

(** ** Tensors and the numerical kernels of the runtime *)

Record tensor (D : Type) : Type := { size : list Z; values : D }.
Arguments size {D} t.
Arguments values {D} t.

Class Kernels : Type := {
  data : Type;
  gen : Type;
  k_param : Param -> data;
  k_permute : list nat -> tensor data -> data;
  k_select : Z -> tensor data -> data;
  k_matmul : tensor data -> tensor data -> data;
  k_conv2d : Conv2d -> tensor data -> data;
  k_fresh_stats : Z -> data;
  k_batch_norm : bool -> Param -> Param -> data -> tensor data -> data;
  k_running_stats : data -> tensor data -> data;
  k_dropout : Q -> gen -> tensor data -> gen * data;
  k_add : tensor data -> tensor data -> data;
  k_add_scalar : tensor data -> Z -> data;
  k_relu : tensor data -> data;
  k_mean : Z -> tensor data -> data;
  k_linear : Linear -> tensor data -> data
}.

Definition Tensor {K : Kernels} : Type := tensor data.

(** ** The forward monad: module state, generator state, exceptions *)

Section Monad.
Context {K : Kernels}.

Definition M (S A : Type) : Type := S -> gen -> S * gen * result A.

Definition ret {S A : Type} (a : A) : M S A := fun s g => (s, g, Ok a).

Definition lift {S A : Type} (r : result A) : M S A := fun s g => (s, g, r).

Definition bind {S A B : Type} (m : M S A) (f : A -> M S B) : M S B :=
  fun s g =>
    match m s g with
    | (s', g', Ok a) => f a s' g'
    | (s', g', Raise e) => (s', g', Raise e)
    end.

Definition gets {S A : Type} (f : S -> A) : M S A := fun s g => (s, g, Ok (f s)).

Definition modify {S : Type} (f : S -> S) : M S unit := fun s g => (f s, g, Ok tt).

(** Run a method of the sub-module [get s] and store the sub-module back. *)
Definition zoom {S L A : Type} (get : S -> L) (set : L -> S -> S) (m : M L A)
  : M S A :=
  fun s g =>
    match m (get s) g with
    | (l', g', r) => (set l' s, g', r)
    end.

(** The module left behind, and the value returned or exception raised. *)
Definition state_of {S A : Type} (o : S * gen * result A) : S := fst (fst o).
Definition result_of {S A : Type} (o : S * gen * result A) : result A := snd o.

End Monad.

Notation "x <- m ;; k" := (bind m (fun x => k))
  (at level 100, m at next level, right associativity).

Fixpoint forM {K : Kernels} {S A B : Type} (l : list A) (body : A -> B -> M S B)
  (acc : B) : M S B :=
  match l with
  | [] => ret acc
  | a :: l' => acc' <- body a acc ;; forM l' body acc'
  end.

(** ** Tensor operations of the runtime *)

Module torch.
Section Ops.
Context {K : Kernels}.

Definition numel (s : list Z) : Z := fold_right Z.mul 1 s.

(** [t.permute(dims)]: [dims] must name every axis exactly once. *)
Definition is_permutation (rank : nat) (dims : list nat) : bool :=
  Nat.eqb (List.length dims) rank
  && forallb (fun i => existsb (Nat.eqb i) dims) (seq 0 rank).

Definition permute (dims : list nat) (x : Tensor) : result Tensor :=
  if is_permutation (List.length (size x)) dims then
    Ok {| size := map (fun i => nth i (size x) 0) dims;
          values := k_permute dims x |}
  else Raise RuntimeError_permute.

(** [t.contiguous()]: same size, same values. *)
Definition contiguous (x : Tensor) : result Tensor := Ok x.

(** [t.cuda(device)]: same size, same values. *)
Definition cuda (x : Tensor) : Tensor := x.

(** The sizes given to [view], with at most one [-1] resolved against the
    number of elements [n] of the tensor. *)
Definition infer_size (n : Z) (s : list Z) : result (list Z) :=
  if forallb (fun d => (0 <=? d) || (d =? -1)) s then
    match List.length (filter (fun d => d =? -1) s) with
    | O => if numel s =? n then Ok s else Raise RuntimeError_view
    | 1%nat =>
        let p := numel (filter (fun d => negb (d =? -1)) s) in
        if p =? 0 then Raise RuntimeError_view
        else if n mod p =? 0
             then Ok (map (fun d => if d =? -1 then n / p else d) s)
             else Raise RuntimeError_view
    | _ => Raise RuntimeError_view
    end
  else Raise RuntimeError_view.

(** [t.view(s)] of a contiguous tensor: the values are untouched. *)
Definition view (s : list Z) (x : Tensor) : result Tensor :=
  s' <~ infer_size (numel (size x)) s ;;
  Ok {| size := s'; values := values x |}.

(** [A[i]] on the first axis. *)
Definition select (i : Z) (x : Tensor) : result Tensor :=
  match size x with
  | d :: rest =>
      if (- d <=? i) && (i <? d)
      then Ok {| size := rest; values := k_select i x |}
      else Raise IndexError_index
  | [] => Raise IndexError_index
  end.

(** [torch.matmul(a, b)] for a batch of matrices [a] and a matrix [b],
    the only combination of ranks the network uses. *)
Definition matmul (a b : Tensor) : result Tensor :=
  match size a, size b with
  | [b0; n; m], [m'; p] =>
      if m =? m'
      then Ok {| size := [b0; n; p]; values := k_matmul a b |}
      else Raise RuntimeError_matmul
  | _, _ => Raise RuntimeError_matmul
  end.

(** Broadcasting of two sizes, aligned on the last axis. *)
Fixpoint broadcast_rev (a b : list Z) : option (list Z) :=
  match a, b with
  | [], _ => Some b
  | _, [] => Some a
  | x :: a', y :: b' =>
      if x =? y then option_map (cons x) (broadcast_rev a' b')
      else if x =? 1 then option_map (cons y) (broadcast_rev a' b')
      else if y =? 1 then option_map (cons x) (broadcast_rev a' b')
      else None
  end.

Definition broadcast (a b : list Z) : option (list Z) :=
  option_map (@rev Z) (broadcast_rev (rev a) (rev b)).

Fixpoint sizes_eqb (a b : list Z) : bool :=
  match a, b with
  | [], [] => true
  | x :: a', y :: b' => (x =? y) && sizes_eqb a' b'
  | _, _ => false
  end.

(** [a + b] *)
Definition add (a b : Tensor) : result Tensor :=
  match broadcast (size a) (size b) with
  | Some s => Ok {| size := s; values := k_add a b |}
  | None => Raise RuntimeError_broadcast
  end.

(** [a += b]: the broadcast must not change the size of [a]. *)
Definition iadd (a b : Tensor) : result Tensor :=
  match broadcast (size a) (size b) with
  | Some s =>
      if sizes_eqb s (size a)
      then Ok {| size := size a; values := k_add a b |}
      else Raise RuntimeError_broadcast
  | None => Raise RuntimeError_broadcast
  end.

(** [a + c] for a Python number [c]. *)
Definition add_scalar (a : Tensor) (c : Z) : Tensor :=
  {| size := size a; values := k_add_scalar a c |}.

Fixpoint remove_nth {A : Type} (i : nat) (l : list A) : list A :=
  match i, l with
  | _, [] => []
  | O, _ :: l' => l'
  | S i', a :: l' => a :: remove_nth i' l'
  end.

(** [t.mean(dim)] *)
Definition mean (dim : Z) (x : Tensor) : result Tensor :=
  let rank := Z.of_nat (List.length (size x)) in
  if (- rank <=? dim) && (dim <? rank) then
    let d := if dim <? 0 then dim + rank else dim in
    Ok {| size := remove_nth (Z.to_nat d) (size x); values := k_mean dim x |}
  else Raise IndexError_index.

End Ops.
End torch.

(** ** Layers of the runtime *)

Record BatchNorm {K : Kernels} : Type := {
  num_features : Z;
  bn_weight : Param;
  bn_bias : Param;
  running_stats : data;
  num_batches_tracked : Z;
  bn_training : bool
}.

Record Dropout : Type := { p : Q; dp_training : bool }.

Module F.
Section Functional.
Context {K : Kernels}.

(** [nn.BatchNorm1d(n)] and [nn.BatchNorm2d(n)] create the same fields;
    a new module is in training mode. *)
Definition new_BatchNorm (n : Z) : BatchNorm :=
  {| num_features := n;
     bn_weight := {| p_size := [n]; p_init := library_default |};
     bn_bias := {| p_size := [n]; p_init := library_default |};
     running_stats := k_fresh_stats n;
     num_batches_tracked := 0;
     bn_training := true |}.

Definition new_Dropout (rate : Q) : Dropout :=
  {| p := rate; dp_training := true |}.

Definition track (b : BatchNorm) : BatchNorm :=
  {| num_features := num_features b;
     bn_weight := bn_weight b; bn_bias := bn_bias b;
     running_stats := running_stats b;
     num_batches_tracked := num_batches_tracked b + 1;
     bn_training := bn_training b |}.

Definition update_stats (x : Tensor) (b : BatchNorm) : BatchNorm :=
  {| num_features := num_features b;
     bn_weight := bn_weight b; bn_bias := bn_bias b;
     running_stats := k_running_stats (running_stats b) x;
     num_batches_tracked := num_batches_tracked b;
     bn_training := bn_training b |}.

Definition train_BatchNorm (mode : bool) (b : BatchNorm) : BatchNorm :=
  {| num_features := num_features b;
     bn_weight := bn_weight b; bn_bias := bn_bias b;
     running_stats := running_stats b;
     num_batches_tracked := num_batches_tracked b;
     bn_training := mode |}.

Definition train_Dropout (mode : bool) (d : Dropout) : Dropout :=
  {| p := p d; dp_training := mode |}.

(** [_verify_batch_size]: the number of values per channel. *)
Definition size_prods (s : list Z) : Z :=
  match s with
  | n :: _ :: rest => fold_left Z.mul rest n
  | _ => 0
  end.

(** [_BatchNorm.forward]: check the rank, count the batch when training,
    then [F.batch_norm]: check the batch size when training, check the
    channels against the statistics, update the statistics when
    training, normalize. *)
Definition batch_norm (ranks : list nat) (x : Tensor) : M BatchNorm Tensor :=
  _ <- lift (if existsb (Nat.eqb (List.length (size x))) ranks
             then Ok tt else Raise ValueError_batch_norm_dim) ;;
  training <- gets bn_training ;;
  _ <- (if training then modify track else ret tt) ;;
  _ <- lift (if training && (size_prods (size x) =? 1)
             then Raise ValueError_batch_norm_size else Ok tt) ;;
  n <- gets num_features ;;
  _ <- lift (if nth 1 (size x) 0 =? n
             then Ok tt else Raise RuntimeError_batch_norm) ;;
  b <- gets (fun b => b) ;;
  _ <- (if training then modify (update_stats x) else ret tt) ;;
  ret {| size := size x;
         values := k_batch_norm training (bn_weight b) (bn_bias b)
                     (running_stats b) x |}.

Definition BatchNorm1d_forward : Tensor -> M BatchNorm Tensor :=
  batch_norm [2%nat; 3%nat].
Definition BatchNorm2d_forward : Tensor -> M BatchNorm Tensor :=
  batch_norm [4%nat].

(** Output length of a convolution along one axis. *)
Definition conv_out (i k pad s : Z) : option Z :=
  if (0 <? s) && (0 <? k) && (k <=? i + 2 * pad)
  then Some ((i + 2 * pad - k) / s + 1)
  else None.

(** [nn.Conv2d.forward]: [F.conv2d(x, weight, bias, stride, padding)]. *)
Definition Conv2d_forward (c : Conv2d) (x : Tensor) : result Tensor :=
  match size x, p_size (weight c) with
  | [n; ci; h; w], [co; ci'; kh; kw] =>
      if ci =? ci' then
        match conv_out h kh (fst (padding c)) (fst (stride c)),
              conv_out w kw (snd (padding c)) (snd (stride c)) with
        | Some h', Some w' =>
            Ok {| size := [n; co; h'; w']; values := k_conv2d c x |}
        | _, _ => Raise RuntimeError_conv2d_kernel
        end
      else Raise RuntimeError_conv2d_channels
  | _, _ => Raise RuntimeError_conv2d_dim
  end.

(** [nn.Linear.forward] *)
Definition Linear_forward (l : Linear) (x : Tensor) : result Tensor :=
  match rev (size x), p_size (l_weight l) with
  | f :: r, [fout; fin] =>
      if f =? fin
      then Ok {| size := rev (fout :: r); values := k_linear l x |}
      else Raise RuntimeError_linear
  | _, _ => Raise RuntimeError_linear
  end.

(** [nn.Dropout.forward]: the identity in evaluation mode, a random mask
    drawn from the generator in training mode. *)
Definition Dropout_forward (x : Tensor) : M Dropout Tensor :=
  fun d g =>
    if dp_training d then
      let (g', v) := k_dropout (p d) g x in
      (d, g', Ok {| size := size x; values := v |})
    else (d, g, Ok x).

(** [nn.ReLU.forward] *)
Definition relu (x : Tensor) : Tensor :=
  {| size := size x; values := k_relu x |}.

End Functional.
End F.

(** ** [weights_init] *)

(** The classes of the modules handed to [weights_init]; [isinstance]
    becomes a match on the class. *)
Inductive kind : Type := KConv2d | KBatchNorm1d | KBatchNorm2d | KLinear.

Definition layer {K : Kernels} (k : kind) : Type :=
  match k with
  | KConv2d => Conv2d
  | KBatchNorm1d | KBatchNorm2d => BatchNorm
  | KLinear => Linear
  end.

(** [a / b] on floats and [math.sqrt]. *)
Definition truediv (a b : Q) : result Q :=
  if Qeq_bool b 0 then Raise ZeroDivisionError else Ok (a / b)%Q.

Definition math_sqrt_of (r : Q) : result Q :=
  if Qle_bool 0 r then Ok r else Raise ValueError_math_domain.

Definition init_Conv2d (w b : initializer) (c : Conv2d) : Conv2d :=
  {| in_channels := in_channels c; out_channels := out_channels c;
     kernel_size := kernel_size c; stride := stride c; padding := padding c;
     weight := with_init w (weight c);
     bias := with_init b (bias c) |}.

Definition init_BatchNorm {K : Kernels} (w b : initializer) (m : BatchNorm)
  : BatchNorm :=
  {| num_features := num_features m;
     bn_weight := with_init w (bn_weight m);
     bn_bias := with_init b (bn_bias m);
     running_stats := running_stats m;
     num_batches_tracked := num_batches_tracked m;
     bn_training := bn_training m |}.

Definition init_Linear_weight (w : initializer) (l : Linear) : Linear :=
  {| in_features := in_features l; out_features := out_features l;
     l_weight := with_init w (l_weight l);
     l_bias := l_bias l |}.

Definition weights_init {K : Kernels} (k : kind) (module_ : layer k) (bs : Q)
  : result (layer k) :=
  match k return layer k -> result (layer k) with
  | KConv2d => fun module_ =>
      if Qeq_bool bs 1 then
        Ok (init_Conv2d kaiming_normal_fan_out (constant_ 0) module_)
      else
        s0 <~ size_at (p_size (weight module_)) 0 ;;
        s1 <~ size_at (p_size (weight module_)) 1 ;;
        s2 <~ size_at (p_size (weight module_)) 2 ;;
        q <~ truediv 2 (inject_Z (s0 * s1 * s2) * bs)%Q ;;
        r <~ math_sqrt_of q ;;
        Ok (init_Conv2d (normal_ 0 r) (constant_ 0) module_)
  | KBatchNorm2d => fun module_ =>
      Ok (init_BatchNorm (constant_ bs) (constant_ 0) module_)
  | KLinear => fun module_ =>
      q <~ truediv 2 bs ;;
      r <~ math_sqrt_of q ;;
      Ok (init_Linear_weight (normal_ 0 r) module_)
  | KBatchNorm1d => fun module_ => Ok module_
  end module_.

(** ** [class BilinearMapping] *)

Module BilinearMapping.
Section Class_.
Context {K : Kernels}.

Record t : Type := {
  num_subset : Z;
  rand_graph : Param;
  g_conv : list Conv2d;
  gcn_residual : Conv2d * BatchNorm;
  bn : BatchNorm
}.

Definition set_gcn_residual (r : Conv2d * BatchNorm) (self : t) : t :=
  {| num_subset := num_subset self; rand_graph := rand_graph self;
     g_conv := g_conv self; gcn_residual := r; bn := bn self |}.

Definition set_bn (b : BatchNorm) (self : t) : t :=
  {| num_subset := num_subset self; rand_graph := rand_graph self;
     g_conv := g_conv self; gcn_residual := gcn_residual self; bn := b |}.

(** [nn.Parameter(torch.from_numpy(np.random.rand(d0, d1, d2)...))]:
    [np.random.rand] refuses a negative size. *)
Definition np_random_rand (sizes : list Z) : result Param :=
  if forallb (Z.leb 0) sizes
  then Ok {| p_size := sizes; p_init := numpy_random_rand |}
  else Raise ValueError_negative_dimensions.

(** Each convolution of [g_conv] is initialized right after it is
    appended; the residual path goes through [weights_init] only when the
    joint dimensions differ. *)
Definition __init__ (in_channels out_channels graph_dim1 graph_dim2 : Z)
  : result t :=
  let num_subset := 3 in
  rand_graph <~ np_random_rand [num_subset; graph_dim1; graph_dim2] ;;
  g_conv <~ for_ (range num_subset)
              (fun _ g_conv =>
                 c <~ weights_init KConv2d
                        (nn.Conv2d in_channels out_channels (1, 1) (1, 1) (0, 0))
                        (inject_Z num_subset) ;;
                 Ok (g_conv ++ [c])) [] ;;
  gcn_residual <~
    (if negb (graph_dim1 =? graph_dim2) then
       c <~ weights_init KConv2d
              (nn.Conv2d in_channels out_channels (graph_dim2, graph_dim1)
                 (1, 1) (0, 0)) 1 ;;
       b <~ weights_init KBatchNorm2d (F.new_BatchNorm out_channels) 1 ;;
       Ok (c, b)
     else
       Ok (nn.Conv2d in_channels out_channels (1, 1) (1, 1) (0, 0),
           F.new_BatchNorm out_channels)) ;;
  bn <~ weights_init KBatchNorm2d (F.new_BatchNorm out_channels)
          (1 # 1000000) ;;
  Ok {| num_subset := num_subset; rand_graph := rand_graph;
        g_conv := g_conv; gcn_residual := gcn_residual; bn := bn |}.

Definition unpack4 (s : list Z) : result (Z * Z * Z * Z) :=
  match s with
  | [a; b; c; d] => Ok (a, b, c, d)
  | _ => Raise ValueError_unpack
  end.

(** The tensor held by a parameter. *)
Definition tensor_of (w : Param) : Tensor :=
  {| size := p_size w; values := k_param w |}.

(** [nn.Sequential(conv, bn).forward] *)
Definition Sequential_forward (x : Tensor) : M (Conv2d * BatchNorm) Tensor :=
  conv <- gets fst ;;
  y <- lift (F.Conv2d_forward conv x) ;;
  zoom snd (fun b s => (fst s, b)) (F.BatchNorm2d_forward y).

(** [hidden_] is [None] until the first subset has been computed; the
    residual is added to [hidden_] in place. *)
Definition forward (x : Tensor) : M t Tensor :=
  s <- lift (unpack4 (size x)) ;;
  let '(N, C, T, V) := s in
  A <- gets (fun self => torch.cuda (tensor_of (rand_graph self))) ;;
  n <- gets num_subset ;;
  convs <- gets g_conv ;;
  hidden_ <- lift (for_ (range n)
    (fun i hidden_ =>
       x_a <~ torch.view [N; C * T; V] x ;;
       conv <~ match nth_error convs (Z.to_nat i) with
               | Some c => Ok c
               | None => Raise IndexError_index
               end ;;
       A_i <~ torch.select i A ;;
       xa <~ torch.matmul x_a A_i ;;
       A2 <~ size_at (size A) 2 ;;
       y <~ torch.view [N; C; T; A2] xa ;;
       z <~ F.Conv2d_forward conv y ;;
       match hidden_ with
       | Some h => zh <~ torch.add z h ;; Ok (Some zh)
       | None => Ok (Some z)
       end) None) ;;
  hidden_ <- lift (match hidden_ with
                   | Some h => Ok h
                   | None => Raise TypeError_None
                   end) ;;
  hidden_ <- zoom bn set_bn (F.BatchNorm2d_forward hidden_) ;;
  r <- zoom gcn_residual set_gcn_residual (Sequential_forward x) ;;
  hidden_ <- lift (torch.iadd hidden_ r) ;;
  ret (F.relu hidden_).

Definition train (mode : bool) (self : t) : t :=
  {| num_subset := num_subset self; rand_graph := rand_graph self;
     g_conv := g_conv self;
     gcn_residual := (fst (gcn_residual self),
                      F.train_BatchNorm mode (snd (gcn_residual self)));
     bn := F.train_BatchNorm mode (bn self) |}.

End Class_.
End BilinearMapping.

(** ** [class TemporalConvolution] *)

Module TemporalConvolution.
Section Class_.
Context {K : Kernels}.

Record t : Type := { t_conv : Conv2d; bn : BatchNorm }.

Definition set_bn (b : BatchNorm) (self : t) : t :=
  {| t_conv := t_conv self; bn := b |}.

(** [int((kernel_size_ - 1) / 2)] truncates toward zero.  The quotient is
    taken over the integers: it is the value of the float division for
    every [kernel_size_] up to [2 ^ 53] in absolute value. *)
Definition __init__ (in_channels out_channels : Z)
  (kernel_size_joint kernel_size_ stride : Z) : result t :=
  let pad := Z.quot (kernel_size_ - 1) 2 in
  let t_conv := nn.Conv2d in_channels out_channels
                  (kernel_size_, kernel_size_joint) (stride, 1) (pad, 0) in
  let bn := F.new_BatchNorm out_channels in
  t_conv <~ weights_init KConv2d t_conv 1 ;;
  bn <~ weights_init KBatchNorm2d bn 1 ;;
  Ok {| t_conv := t_conv; bn := bn |}.

Definition forward (x : Tensor) : M t Tensor :=
  conv <- gets t_conv ;;
  y <- lift (F.Conv2d_forward conv x) ;;
  zoom bn set_bn (F.BatchNorm2d_forward y).

Definition train (mode : bool) (self : t) : t :=
  {| t_conv := t_conv self; bn := F.train_BatchNorm mode (bn self) |}.

End Class_.
End TemporalConvolution.

(** ** [class ST_BLN_block] *)

(** What a residual path returns: the Python number of [lambda x: 0] or the
    tensor of a module. *)
Inductive pyvalue {K : Kernels} : Type :=
| Number (c : Z)
| TensorValue (y : Tensor).

Module ST_BLN_block.
Section Class_.
Context {K : Kernels}.

Inductive residual_path : Type :=
| zero_lambda                                   (* lambda x: 0 *)
| residual_module (r : TemporalConvolution.t).

Record t : Type := {
  gcn : BilinearMapping.t;
  tcn : TemporalConvolution.t;
  residual : residual_path
}.

Definition set_gcn (m : BilinearMapping.t) (self : t) : t :=
  {| gcn := m; tcn := tcn self; residual := residual self |}.
Definition set_tcn (m : TemporalConvolution.t) (self : t) : t :=
  {| gcn := gcn self; tcn := m; residual := residual self |}.
Definition set_residual (r : residual_path) (self : t) : t :=
  {| gcn := gcn self; tcn := tcn self; residual := r |}.

Definition __init__ (in_channels out_channels graph_dim1 graph_dim2 stride : Z)
  (residual : bool) : result t :=
  gcn <~ BilinearMapping.__init__ in_channels out_channels
           graph_dim1 graph_dim2 ;;
  tcn <~ TemporalConvolution.__init__ out_channels out_channels 1 9 stride ;;
  residual <~
    (if negb residual then Ok zero_lambda
     else if negb (graph_dim1 =? graph_dim2) then
       r <~ TemporalConvolution.__init__ in_channels out_channels
              graph_dim1 9 stride ;;
       Ok (residual_module r)
     else
       r <~ TemporalConvolution.__init__ in_channels out_channels
              1 9 stride ;;
       Ok (residual_module r)) ;;
  Ok {| gcn := gcn; tcn := tcn; residual := residual |}.

(** [self.residual(x)] *)
Definition call_residual (x : Tensor) : M residual_path pyvalue :=
  fun r g =>
    match r with
    | zero_lambda => (r, g, Ok (Number 0))
    | residual_module m =>
        match TemporalConvolution.forward x m g with
        | (m', g', Ok y) => (residual_module m', g', Ok (TensorValue y))
        | (m', g', Raise e) => (residual_module m', g', Raise e)
        end
    end.

(** [y + r] for a tensor [y]. *)
Definition add (y : Tensor) (r : pyvalue) : result Tensor :=
  match r with
  | Number c => Ok (torch.add_scalar y c)
  | TensorValue z => torch.add y z
  end.

Definition forward (x : Tensor) : M t Tensor :=
  h <- zoom gcn set_gcn (BilinearMapping.forward x) ;;
  y <- zoom tcn set_tcn (TemporalConvolution.forward h) ;;
  r <- zoom residual set_residual (call_residual x) ;;
  x <- lift (add y r) ;;
  ret (F.relu x).

Definition train (mode : bool) (self : t) : t :=
  {| gcn := BilinearMapping.train mode (gcn self);
     tcn := TemporalConvolution.train mode (tcn self);
     residual := match residual self with
                 | zero_lambda => zero_lambda
                 | residual_module r =>
                     residual_module (TemporalConvolution.train mode r)
                 end |}.

End Class_.
End ST_BLN_block.

(** ** [class STBLN] *)

(** [nn.ModuleDict]: an ordered dictionary with string keys. *)
Section ModuleDict.
Context {K : Kernels} {V : Type}.

Fixpoint lookup (k : string) (d : list (string * V)) : option V :=
  match d with
  | [] => None
  | (k', v) :: d' => if String.eqb k k' then Some v else lookup k d'
  end.

Fixpoint update (k : string) (v : V) (d : list (string * V))
  : list (string * V) :=
  match d with
  | [] => []
  | (k', v') :: d' =>
      if String.eqb k k' then (k', v) :: d' else (k', v') :: update k v d'
  end.

(** Call a method of [d[k]]. *)
Definition zoom_item {A : Type} (k : string) (m : M V A)
  : M (list (string * V)) A :=
  fun d g =>
    match lookup k d with
    | None => (d, g, Raise KeyError)
    | Some v =>
        match m v g with
        | (v', g', r) => (update k v' d, g', r)
        end
    end.
End ModuleDict.

Module STBLN.
Section Class_.
Context {K : Kernels}.

Record t : Type := {
  data_bn : BatchNorm;
  dropout_ : Dropout;
  layers : list (string * ST_BLN_block.t);
  fc : Linear
}.

Definition set_data_bn (b : BatchNorm) (self : t) : t :=
  {| data_bn := b; dropout_ := dropout_ self;
     layers := layers self; fc := fc self |}.
Definition set_dropout_ (d : Dropout) (self : t) : t :=
  {| data_bn := data_bn self; dropout_ := d;
     layers := layers self; fc := fc self |}.
Definition set_layers (l : list (string * ST_BLN_block.t)) (self : t) : t :=
  {| data_bn := data_bn self; dropout_ := dropout_ self;
     layers := l; fc := fc self |}.

Definition __init__ (num_class num_point num_person in_channels : Z)
  : result t :=
  data_bn <~ weights_init KBatchNorm1d
               (F.new_BatchNorm (num_person * in_channels * num_point)) 1 ;;
  let dropout_ := F.new_Dropout (2 # 10) in
  layer1 <~ ST_BLN_block.__init__ 2 8 num_point num_point 1 false ;;
  layer2 <~ ST_BLN_block.__init__ 8 16 num_point num_point 1 true ;;
  layer3 <~ ST_BLN_block.__init__ 16 16 num_point num_point 1 true ;;
  layer4 <~ ST_BLN_block.__init__ 16 32 num_point num_point 1 true ;;
  layer5 <~ ST_BLN_block.__init__ 32 32 num_point num_point 1 true ;;
  layer6 <~ ST_BLN_block.__init__ 32 64 num_point num_point 1 true ;;
  layer7 <~ ST_BLN_block.__init__ 64 64 num_point num_point 1 true ;;
  let layers := [("layer1", layer1); ("layer2", layer2); ("layer3", layer3);
                 ("layer4", layer4); ("layer5", layer5); ("layer6", layer6);
                 ("layer7", layer7)]%string in
  fc <~ weights_init KLinear (nn.Linear 64 num_class) (inject_Z num_class) ;;
  Ok {| data_bn := data_bn; dropout_ := dropout_;
        layers := layers; fc := fc |}.

Definition unpack5 (s : list Z) : result (Z * Z * Z * Z * Z) :=
  match s with
  | [a; b; c; d; e] => Ok (a, b, c, d, e)
  | _ => Raise ValueError_unpack
  end.

(** The loop of [forward] over [self.layers]. *)
Definition forward_layers (x : Tensor) : M t Tensor :=
  len <- gets (fun self => Z.of_nat (List.length (layers self))) ;;
  forM (range len)
    (fun i x =>
       x <- zoom dropout_ set_dropout_ (F.Dropout_forward x) ;;
       zoom layers set_layers
         (zoom_item ("layer" ++ str (i + 1)) (ST_BLN_block.forward x)))
    x.

Definition forward (x : Tensor) : M t Tensor :=
  s <- lift (unpack5 (size x)) ;;
  let '(N, C, T, V, M_) := s in
  x <- lift (x <~ torch.permute [0; 4; 3; 1; 2]%nat x ;;
             x <~ torch.contiguous x ;;
             torch.view [N; M_ * V * C; T] x) ;;
  x <- zoom data_bn set_data_bn (F.BatchNorm1d_forward x) ;;
  x <- lift (x <~ torch.view [N; M_; V; C; T] x ;;
             x <~ torch.permute [0; 1; 3; 4; 2]%nat x ;;
             x <~ torch.contiguous x ;;
             torch.view [N * M_; C; T; V] x) ;;
  x <- forward_layers x ;;
  c_new <- lift (size_at (size x) 1) ;;
  x <- lift (torch.view [N; M_; c_new; -1] x) ;;
  x <- lift (x <~ torch.mean 3 x ;; torch.mean 1 x) ;;
  l <- gets fc ;;
  lift (F.Linear_forward l x).

(** [nn.Module.train(mode)], applied to every sub-module that has a mode;
    [eval()] is [train(False)]. *)
Definition train (mode : bool) (self : t) : t :=
  {| data_bn := F.train_BatchNorm mode (data_bn self);
     dropout_ := F.train_Dropout mode (dropout_ self);
     layers := map (fun kv => (fst kv, ST_BLN_block.train mode (snd kv)))
                 (layers self);
     fc := fc self |}.

End Class_.
End STBLN.

(** ** [nn.Module.parameters()] *)

Section Parameters.
Context {K : Kernels}.

Definition Conv2d_parameters (c : Conv2d) : list Param := [weight c; bias c].
Definition BatchNorm_parameters (b : BatchNorm) : list Param :=
  [bn_weight b; bn_bias b].
Definition Linear_parameters (l : Linear) : list Param :=
  [l_weight l; l_bias l].

Definition BilinearMapping_parameters (m : BilinearMapping.t) : list Param :=
  BilinearMapping.rand_graph m
    :: flat_map Conv2d_parameters (BilinearMapping.g_conv m)
    ++ Conv2d_parameters (fst (BilinearMapping.gcn_residual m))
    ++ BatchNorm_parameters (snd (BilinearMapping.gcn_residual m))
    ++ BatchNorm_parameters (BilinearMapping.bn m).

Definition TemporalConvolution_parameters (m : TemporalConvolution.t)
  : list Param :=
  Conv2d_parameters (TemporalConvolution.t_conv m)
    ++ BatchNorm_parameters (TemporalConvolution.bn m).

Definition residual_parameters (r : ST_BLN_block.residual_path) : list Param :=
  match r with
  | ST_BLN_block.zero_lambda => []
  | ST_BLN_block.residual_module m => TemporalConvolution_parameters m
  end.

Definition ST_BLN_block_parameters (m : ST_BLN_block.t) : list Param :=
  BilinearMapping_parameters (ST_BLN_block.gcn m)
    ++ TemporalConvolution_parameters (ST_BLN_block.tcn m)
    ++ residual_parameters (ST_BLN_block.residual m).

Definition STBLN_parameters (m : STBLN.t) : list Param :=
  BatchNorm_parameters (STBLN.data_bn m)
    ++ flat_map (fun kv => ST_BLN_block_parameters (snd kv)) (STBLN.layers m)
    ++ Linear_parameters (STBLN.fc m).

End Parameters.

(** ** A runtime that computes sizes only

    Every payload is [tt]; the generator counts the masks drawn by
    dropout. *)

Definition sizes_only : Kernels :=
  {| data := unit;
     gen := nat;
     k_param := fun _ => tt;
     k_permute := fun _ _ => tt;
     k_select := fun _ _ => tt;
     k_matmul := fun _ _ => tt;
     k_conv2d := fun _ _ => tt;
     k_fresh_stats := fun _ => tt;
     k_batch_norm := fun _ _ _ _ _ => tt;
     k_running_stats := fun _ _ => tt;
     k_dropout := fun _ g _ => (S g, tt);
     k_add := fun _ _ => tt;
     k_add_scalar := fun _ _ => tt;
     k_relu := fun _ => tt;
     k_mean := fun _ _ => tt;
     k_linear := fun _ _ => tt |}.

(** A tensor of the given size in the sizes-only runtime. *)
Definition of_size (s : list Z) : @Tensor sizes_only :=
  {| size := s; values := tt |}.

(** ** Configurations

    What the sizes computed by [forward] depend on: the sizes of the
    weights, strides and paddings, the number of features and the mode of
    the normalization layers. *)

Section Configurations.
Context {K : Kernels}.

Definition conv_cfg (c : Conv2d) (cin cout kh kw ph : Z) : Prop :=
  p_size (weight c) = [cout; cin; kh; kw]
  /\ stride c = (1, 1) /\ padding c = (ph, 0)
  /\ in_channels c = cin /\ out_channels c = cout.

Definition bn_cfg (b : BatchNorm) (n : Z) (mode : bool) : Prop :=
  num_features b = n /\ bn_training b = mode.

Definition gcn_cfg_gen (m : BilinearMapping.t) (cin cout v w kh kw : Z)
  (mode : bool) : Prop :=
  BilinearMapping.num_subset m = 3
  /\ p_size (BilinearMapping.rand_graph m) = [3; v; w]
  /\ (exists c0 c1 c2,
        BilinearMapping.g_conv m = [c0; c1; c2]
        /\ conv_cfg c0 cin cout 1 1 0
        /\ conv_cfg c1 cin cout 1 1 0
        /\ conv_cfg c2 cin cout 1 1 0)
  /\ conv_cfg (fst (BilinearMapping.gcn_residual m)) cin cout kh kw 0
  /\ bn_cfg (snd (BilinearMapping.gcn_residual m)) cout mode
  /\ bn_cfg (BilinearMapping.bn m) cout mode.

(** Equal joint dimensions: the residual convolution is 1x1. *)
Definition gcn_cfg (m : BilinearMapping.t) (cin cout v : Z) (mode : bool)
  : Prop :=
  gcn_cfg_gen m cin cout v v 1 1 mode.






(** The channels a block was constructed for. *)
Definition block_in_channels (b : ST_BLN_block.t) : Z :=
  in_channels (fst (BilinearMapping.gcn_residual (ST_BLN_block.gcn b))).
Definition block_out_channels (b : ST_BLN_block.t) : Z :=
  out_channels (fst (BilinearMapping.gcn_residual (ST_BLN_block.gcn b))).

End Configurations.

(** ** Concrete models for the sizes-only runtime *)

(** The value of a call that does not raise. *)
Definition unwrap {A : Type} (r : result A) : is_ok r = true -> A :=
  match r as r0 return is_ok r0 = true -> A with
  | Ok a => fun _ => a
  | Raise _ => fun H => False_rect A (Bool.diff_false_true H)
  end.

(** [STBLN()] with the default arguments. *)
Definition default_STBLN : @STBLN.t sizes_only :=
  unwrap (STBLN.__init__ 6 51 1 2) eq_refl.

(** [BilinearMapping(2, 8, 51, 51)], the operator of layer1. *)
Definition layer1_gcn : @BilinearMapping.t sizes_only :=
  unwrap (BilinearMapping.__init__ 2 8 51 51) eq_refl.

(** [BilinearMapping(2, 8, 4, 3)], with unequal joint dimensions. *)
Definition unequal_gcn : @BilinearMapping.t sizes_only :=
  unwrap (BilinearMapping.__init__ 2 8 4 3) eq_refl.

(** [ST_BLN_block(2, 8, 51, 51, residual=False)], layer1. *)
Definition layer1_block : @ST_BLN_block.t sizes_only :=
  unwrap (ST_BLN_block.__init__ 2 8 51 51 1 false) eq_refl.

(** [TemporalConvolution(8, 8)] with the default kernel. *)
Definition default_tcn : @TemporalConvolution.t sizes_only :=
  unwrap (TemporalConvolution.__init__ 8 8 1 9 1) eq_refl.

(** ** Frames of a computation *)

Section Frames.
Context {K : Kernels}.

(** The computation [c] never changes the part [f] of the state, whether
    it returns or raises. *)
Definition preserves {S A P : Type} (f : S -> P) (c : M S A) : Prop :=
  forall s g, f (state_of (c s g)) = f s.

(** Started in state [s], the computation [c] leaves the state and the
    generator untouched, and its result does not depend on the
    generator. *)
Definition quiet {S A : Type} (c : M S A) (s : S) : Prop :=
  exists r, forall g, c s g = (s, g, r).

End Frames.

(** ** Further observations and concrete models *)

(** The parameters of a layer handed to [weights_init]. *)
Definition layer_parameters {K : Kernels} (k : kind) : layer k -> list Param :=
  match k return layer k -> list Param with
  | KConv2d => Conv2d_parameters
  | KBatchNorm1d | KBatchNorm2d => BatchNorm_parameters
  | KLinear => Linear_parameters
  end.

(** Whether [self.residual] of a block is a module rather than
    [lambda x: 0]. *)
Definition has_residual_module {K : Kernels} (b : ST_BLN_block.t) : bool :=
  match ST_BLN_block.residual b with
  | ST_BLN_block.zero_lambda => false
  | ST_BLN_block.residual_module _ => true
  end.

Section Randomness.
Context {K : Kernels}.


End Randomness.

(** An interpreter whose objects are their dotted paths. *)
Definition path_import (name : string) : result (list string) := Ok [name].
Definition path_getattr (o : list string) (comp : string)
  : result (list string) := Ok (o ++ [comp]).



(** [TemporalConvolution(8, 8, stride=2)] *)
Definition strided_tcn : @TemporalConvolution.t sizes_only :=
  unwrap (TemporalConvolution.__init__ 8 8 1 9 2) eq_refl.

(** [TemporalConvolution(2, 8, kernel_size_joint=4)] *)
Definition joint_tcn : @TemporalConvolution.t sizes_only :=
  unwrap (TemporalConvolution.__init__ 2 8 4 9 1) eq_refl.



(** * Properties *)

(** ** The result monad *)

Lemma rbind_Ok_inv {A B : Type} (r : result A) (f : A -> result B) (b : B) :
  rbind r f = Ok b -> exists a, r = Ok a /\ f a = Ok b.
Proof.
  destruct r as [a|e]; simpl; intros H; [eauto | discriminate].
Qed.

(** ** Sizes *)

Section Sizes.
Context {K : Kernels}.

Lemma filter_nonneg (s : list Z) :
  Forall (fun d => 0 <= d) s -> filter (fun d => d =? -1) s = [].
Proof.
  induction 1 as [|d s Hd _ IH]; simpl; [reflexivity|].
  rewrite (proj2 (Z.eqb_neq d (-1))) by lia. exact IH.
Qed.

Lemma forallb_nonneg (s : list Z) :
  Forall (fun d => 0 <= d) s ->
  forallb (fun d => (0 <=? d) || (d =? -1)) s = true.
Proof.
  induction 1 as [|d s Hd _ IH]; simpl; [reflexivity|].
  rewrite IH, andb_true_r. apply orb_true_iff; left. now apply Z.leb_le.
Qed.

(** A [view] with explicit non-negative sizes succeeds as soon as the
    number of elements agrees. *)
Lemma view_ok (s : list Z) (x : Tensor) :
  Forall (fun d => 0 <= d) s ->
  torch.numel s = torch.numel (size x) ->
  torch.view s x = Ok {| size := s; values := values x |}.
Proof.
  intros Hs Hn. unfold torch.view, torch.infer_size.
  rewrite (forallb_nonneg s Hs), (filter_nonneg s Hs). simpl.
  rewrite (proj2 (Z.eqb_eq _ _) Hn). reflexivity.
Qed.


Lemma broadcast_same4 (a b c d : Z) :
  torch.broadcast [a; b; c; d] [a; b; c; d] = Some [a; b; c; d].
Proof.
  unfold torch.broadcast. simpl. rewrite !Z.eqb_refl. reflexivity.
Qed.

(** A convolution with stride 1 and kernel 1 keeps the length. *)
Lemma conv_out_1 (i : Z) : 1 <= i -> F.conv_out i 1 0 1 = Some i.
Proof.
  intros Hi. unfold F.conv_out.
  replace (0 <? 1) with true by reflexivity.
  rewrite (proj2 (Z.leb_le 1 (i + 2 * 0))) by lia.
  cbn [andb]. f_equal. rewrite Z.div_1_r. lia.
Qed.

(** Stride 1, odd kernel [k], padding [(k - 1) quot 2]: the length is kept. *)
Lemma conv_out_odd (i k : Z) :
  1 <= i -> 1 <= k -> Z.odd k = true ->
  F.conv_out i k (Z.quot (k - 1) 2) 1 = Some i.
Proof.
  intros Hi Hk Hodd. unfold F.conv_out.
  apply Z.odd_spec in Hodd. destruct Hodd as [m Hm].
  assert (Hq : Z.quot (k - 1) 2 = m).
  { rewrite Z.quot_div_nonneg by lia.
    replace (k - 1) with (m * 2) by lia. apply Z.div_mul. lia. }
  rewrite Hq.
  replace (0 <? 1) with true by reflexivity.
  rewrite (proj2 (Z.ltb_lt 0 k)) by lia.
  rewrite (proj2 (Z.leb_le k (i + 2 * m))) by lia.
  cbn [andb]. f_equal. rewrite Z.div_1_r. lia.
Qed.

Lemma Conv2d_forward_ok (c : Conv2d) (x : Tensor) n ci h w co kh kw h' w' :
  size x = [n; ci; h; w] ->
  p_size (weight c) = [co; ci; kh; kw] ->
  F.conv_out h kh (fst (padding c)) (fst (stride c)) = Some h' ->
  F.conv_out w kw (snd (padding c)) (snd (stride c)) = Some w' ->
  F.Conv2d_forward c x
  = Ok {| size := [n; co; h'; w']; values := k_conv2d c x |}.
Proof.
  intros Hx Hw Hh Hw'. unfold F.Conv2d_forward.
  rewrite Hx, Hw, Z.eqb_refl, Hh, Hw'. reflexivity.
Qed.

(** What a normalization layer does on an input it accepts. *)
Lemma batch_norm_ok (ranks : list nat) (x : Tensor) (b : BatchNorm) (g : gen) :
  existsb (Nat.eqb (List.length (size x))) ranks = true ->
  (bn_training b = true -> F.size_prods (size x) <> 1) ->
  nth 1 (size x) 0 = num_features b ->
  F.batch_norm ranks x b g
  = (if bn_training b then F.update_stats x (F.track b) else b, g,
     Ok {| size := size x;
           values := k_batch_norm (bn_training b) (bn_weight b) (bn_bias b)
                       (running_stats b) x |}).
Proof.
  intros Hr Hs Hn.
  unfold F.batch_norm, bind, lift, gets, modify, ret.
  rewrite Hr. destruct (bn_training b) eqn:Ht; simpl.
  - rewrite (proj2 (Z.eqb_neq _ _) (Hs eq_refl)), Hn, Z.eqb_refl. reflexivity.
  - rewrite Hn, Z.eqb_refl. reflexivity.
Qed.

End Sizes.

(** A convolution with stride 1 and no padding. *)
Lemma conv_out_valid (i k : Z) :
  1 <= k <= i -> F.conv_out i k 0 1 = Some (i - k + 1).
Proof.
  intros Hk. unfold F.conv_out.
  replace (0 <? 1) with true by reflexivity.
  rewrite (proj2 (Z.ltb_lt 0 k)) by lia.
  rewrite (proj2 (Z.leb_le k (i + 2 * 0))) by lia.
  cbn [andb]. f_equal. rewrite Z.div_1_r. lia.
Qed.

(** ** Construction establishes the configurations *)

Ltac inv_results :=
  repeat match goal with
    | H : rbind _ _ = Ok _ |- _ =>
        let a := fresh "a" in
        let Ha := fresh "Ha" in
        apply rbind_Ok_inv in H; destruct H as (a & Ha & H)
    | H : Ok _ = Ok _ |- _ => injection H as H; try subst
    | H : Raise _ = Ok _ |- _ => discriminate H
    end.

Section Construction.
Context {K : Kernels}.

Lemma weights_init_Conv2d_inv (c c' : Conv2d) (bs : Q) :
  weights_init KConv2d c bs = Ok c' ->
  p_size (weight c') = p_size (weight c)
  /\ stride c' = stride c /\ padding c' = padding c
  /\ in_channels c' = in_channels c /\ out_channels c' = out_channels c.
Proof.
  unfold weights_init. destruct (Qeq_bool bs 1).
  - intros [= <-]. repeat split.
  - intros H. inv_results. repeat split.
Qed.

Lemma weights_init_BatchNorm2d_inv (b b' : BatchNorm) (bs : Q) :
  weights_init KBatchNorm2d b bs = Ok b' ->
  num_features b' = num_features b /\ bn_training b' = bn_training b.
Proof. intros [= <-]. split; reflexivity. Qed.

Lemma conv_cfg_init (c : Conv2d) (cin cout kh kw ph : Z) (bs : Q) :
  weights_init KConv2d (nn.Conv2d cin cout (kh, kw) (1, 1) (ph, 0)) bs = Ok c ->
  conv_cfg c cin cout kh kw ph.
Proof.
  intros H. apply weights_init_Conv2d_inv in H.
  destruct H as (Hw & Hs & Hp & Hi & Ho).
  unfold conv_cfg. rewrite Hw, Hs, Hp, Hi, Ho. repeat split.
Qed.

Lemma bn_cfg_init (b : BatchNorm) (n : Z) (bs : Q) (mode : bool) :
  weights_init KBatchNorm2d (F.new_BatchNorm n) bs = Ok b ->
  bn_cfg (F.train_BatchNorm mode b) n mode.
Proof.
  intros H. apply weights_init_BatchNorm2d_inv in H. destruct H as (Hf & _).
  split; [exact Hf | reflexivity].
Qed.

Lemma np_random_rand_inv (sizes : list Z) (a : Param) :
  BilinearMapping.np_random_rand sizes = Ok a ->
  a = {| p_size := sizes; p_init := numpy_random_rand |}.
Proof.
  unfold BilinearMapping.np_random_rand.
  destruct (forallb (Z.leb 0) sizes); [|discriminate].
  intros [= <-]. reflexivity.
Qed.

Lemma gcn_cfg_gen_init (m : BilinearMapping.t) (cin cout g1 g2 : Z)
  (mode : bool) :
  BilinearMapping.__init__ cin cout g1 g2 = Ok m ->
  gcn_cfg_gen (BilinearMapping.train mode m) cin cout g1 g2
    (if g1 =? g2 then 1 else g2) (if g1 =? g2 then 1 else g1) mode.
Proof.
  unfold BilinearMapping.__init__. intros H.
  apply rbind_Ok_inv in H. destruct H as (rg & Hrg & H).
  apply np_random_rand_inv in Hrg. subst rg.
  change (range 3) with [0; 1; 2] in H. cbn [for_] in H.
  destruct (g1 =? g2); cbn [negb] in H; inv_results;
    repeat match goal with
      | H : weights_init KConv2d _ _ = Ok _ |- _ => apply conv_cfg_init in H
      | H : weights_init KBatchNorm2d _ _ = Ok _ |- _ =>
          apply (bn_cfg_init _ _ _ mode) in H
      end;
    unfold gcn_cfg_gen; cbn;
    (split; [reflexivity|]); (split; [reflexivity|]);
    (split; [do 3 eexists; split; [reflexivity|];
             split; [eassumption|]; split; eassumption|]).
  - split; [repeat split|]. split; [split; reflexivity | assumption].
  - split; [assumption|]. split; assumption.
Qed.

Lemma gcn_cfg_init (m : BilinearMapping.t) (cin cout v : Z) (mode : bool) :
  BilinearMapping.__init__ cin cout v v = Ok m ->
  gcn_cfg (BilinearMapping.train mode m) cin cout v mode.
Proof.
  intros H. pose proof (gcn_cfg_gen_init m cin cout v v mode H) as G.
  rewrite Z.eqb_refl in G. exact G.
Qed.



End Construction.

(** ** Sizes through the layers *)

Ltac side_nonneg := repeat constructor; nia.
Ltac side_numel H := rewrite ?H; cbv [torch.numel fold_right size]; ring.

Section Forward.
Context {K : Kernels}.

Lemma subset_ok (A x : Tensor) (conv : Conv2d) (i cin cout v w n t : Z) :
  size x = [n; cin; t; v] ->
  size A = [3; v; w] ->
  0 <= i < 3 ->
  conv_cfg conv cin cout 1 1 0 ->
  1 <= n -> 0 <= cin -> 1 <= t -> 1 <= v -> 1 <= w ->
  exists z,
    size z = [n; cout; t; w]
    /\ forall (B : Type) (k : Tensor -> result B),
      (x_a <~ torch.view [n; cin * t; v] x ;;
       conv <~ Ok conv ;;
       A_i <~ torch.select i (torch.cuda A) ;;
       xa <~ torch.matmul x_a A_i ;;
       A2 <~ size_at (size (torch.cuda A)) 2 ;;
       y <~ torch.view [n; cin; t; A2] xa ;;
       z <~ F.Conv2d_forward conv y ;;
       k z) = k z.
Proof.
  intros Hx HA Hi (Hw & Hs & Hp & _) Hn Hc Ht Hv Hw'.
  eexists; split; [|intros B k].
  2:{ rewrite view_ok by (side_nonneg || side_numel Hx).
      cbn [rbind]. unfold torch.cuda, torch.select. rewrite HA.
      rewrite (proj2 (Z.leb_le (Z.opp 3) i)), (proj2 (Z.ltb_lt i 3)) by lia.
      cbn [andb rbind]. unfold torch.matmul. cbn [size].
      rewrite Z.eqb_refl. cbn [rbind size_at nth_error].
      rewrite view_ok by (side_nonneg || side_numel Hx).
      cbn [rbind].
      erewrite Conv2d_forward_ok;
        [ | reflexivity | exact Hw
          | rewrite Hp, Hs; apply conv_out_1; lia
          | rewrite Hp, Hs; apply conv_out_1; lia ].
      cbn [rbind]. reflexivity. }
  reflexivity.
Qed.

(** The bilinear branch of [BilinearMapping.forward]: the three subsets are
    summed and normalized to [hidden]; what remains is the residual path,
    the addition in place and the activation. *)
Lemma gcn_forward_bilinear (m : BilinearMapping.t) (x : Tensor) (g : gen)
  (cin cout v w kh kw n t : Z) (mode : bool) :
  gcn_cfg_gen m cin cout v w kh kw mode ->
  size x = [n; cin; t; v] ->
  1 <= n -> 0 <= cin -> 1 <= t -> 1 <= v -> 1 <= w ->
  (mode = true -> n * t * w <> 1) ->
  exists b' hidden,
    size hidden = [n; cout; t; w]
    /\ BilinearMapping.forward x m g
       = match BilinearMapping.Sequential_forward x
                 (BilinearMapping.gcn_residual m) g with
         | (rs', g', Ok r) =>
             (y <- lift (torch.iadd hidden r) ;; ret (F.relu y))
               (BilinearMapping.set_gcn_residual rs'
                  (BilinearMapping.set_bn b' m)) g'
         | (rs', g', Raise e) =>
             (BilinearMapping.set_gcn_residual rs' (BilinearMapping.set_bn b' m),
              g', Raise e)
         end.
Proof.
  intros (Hns & Hrg & (c0 & c1 & c2 & Hgc & Hc0 & Hc1 & Hc2) & Hrc & Hrb & Hb)
    Hx Hn Hc Ht Hv Hw Hbatch.
  unfold BilinearMapping.forward.
  unfold bind at 1. unfold lift at 1. rewrite Hx. cbn [BilinearMapping.unpack4].
  unfold bind at 1. unfold gets at 1.
  unfold bind at 1. unfold gets at 1. rewrite Hns.
  unfold bind at 1. unfold gets at 1. rewrite Hgc.
  change (range 3) with [0; 1; 2].
  set (A := BilinearMapping.tensor_of (BilinearMapping.rand_graph m)).
  assert (HA : size A = [3; v; w]) by exact Hrg.
  destruct (subset_ok A x c0 0 cin cout v w n t Hx HA ltac:(lia) Hc0
              Hn Hc Ht Hv Hw) as (z0 & Sz0 & Hz0).
  destruct (subset_ok A x c1 1 cin cout v w n t Hx HA ltac:(lia) Hc1
              Hn Hc Ht Hv Hw) as (z1 & Sz1 & Hz1).
  destruct (subset_ok A x c2 2 cin cout v w n t Hx HA ltac:(lia) Hc2
              Hn Hc Ht Hv Hw) as (z2 & Sz2 & Hz2).
  cbn [for_ nth_error Z.to_nat Pos.to_nat Pos.iter_op Nat.add].
  rewrite Hz0. cbn [rbind]. rewrite Hz1.
  unfold torch.add at 1. rewrite Sz1, Sz0, broadcast_same4. cbn [rbind].
  rewrite Hz2.
  unfold torch.add at 1. cbn [size]. rewrite Sz2, broadcast_same4. cbn [rbind].
  unfold bind at 1. unfold lift at 1.
  unfold bind at 1. unfold lift at 1.
  unfold bind at 1. unfold zoom at 1. unfold F.BatchNorm2d_forward.
  destruct Hb as [Hbf Hbt].
  rewrite batch_norm_ok;
    [ | reflexivity
      | cbn [size F.size_prods fold_left]; rewrite Hbt; exact Hbatch
      | cbn [size nth]; now rewrite Hbf ].
  unfold bind at 1. unfold zoom at 1.
  cbn [BilinearMapping.gcn_residual BilinearMapping.set_bn].
  do 2 eexists. split; [|].
  2:{ destruct (BilinearMapping.Sequential_forward x
                  (BilinearMapping.gcn_residual m) g) as [[rs' g'] [r|e]];
        reflexivity. }
  reflexivity.
Qed.

(** The residual path [nn.Sequential(conv, bn)]. *)
Lemma Sequential_forward_ok (c : Conv2d) (b : BatchNorm) (x : Tensor) (g : gen)
  (cin cout kh kw n t v h' w' : Z) (mode : bool) :
  conv_cfg c cin cout kh kw 0 -> bn_cfg b cout mode ->
  size x = [n; cin; t; v] ->
  F.conv_out t kh 0 1 = Some h' -> F.conv_out v kw 0 1 = Some w' ->
  (mode = true -> n * h' * w' <> 1) ->
  exists b' r,
    BilinearMapping.Sequential_forward x (c, b) g = ((c, b'), g, Ok r)
    /\ size r = [n; cout; h'; w'].
Proof.
  intros (Hw & Hs & Hp & _) (Hbf & Hbt) Hx Hh Hw' Hbatch.
  unfold BilinearMapping.Sequential_forward.
  unfold bind at 1. unfold gets at 1. cbn [fst].
  unfold bind at 1. unfold lift at 1.
  erewrite Conv2d_forward_ok;
    [ | exact Hx | exact Hw | rewrite Hp, Hs; exact Hh
      | rewrite Hp, Hs; exact Hw' ].
  unfold zoom at 1. unfold F.BatchNorm2d_forward. cbn [snd fst].
  rewrite batch_norm_ok;
    [ | reflexivity
      | cbn [size F.size_prods fold_left]; rewrite Hbt; exact Hbatch
      | cbn [size nth]; now rewrite Hbf ].
  do 2 eexists. split; reflexivity.
Qed.

(** Whatever the residual path returns has the size of its convolution. *)
Lemma batch_norm_result_size (ranks : list nat) (x y : Tensor) (b : BatchNorm)
  (g : gen) :
  result_of (F.batch_norm ranks x b g) = Ok y -> size y = size x.
Proof.
  unfold F.batch_norm, bind, lift, gets, modify, ret.
  destruct (existsb _ ranks); [|discriminate].
  destruct (bn_training b); cbn [andb].
  - destruct (F.size_prods (size x) =? 1); [discriminate|].
    cbn [num_features F.track].
    destruct (nth 1 (size x) 0 =? num_features b); [|discriminate].
    intros [= <-]. reflexivity.
  - destruct (nth 1 (size x) 0 =? num_features b); [|discriminate].
    intros [= <-]. reflexivity.
Qed.

Lemma Sequential_forward_size (c : Conv2d) (b : BatchNorm) (x r : Tensor)
  (g : gen) (cin cout kh kw n t v : Z) :
  conv_cfg c cin cout kh kw 0 ->
  size x = [n; cin; t; v] ->
  result_of (BilinearMapping.Sequential_forward x (c, b) g) = Ok r ->
  exists h' w',
    F.conv_out t kh 0 1 = Some h' /\ F.conv_out v kw 0 1 = Some w'
    /\ size r = [n; cout; h'; w'].
Proof.
  intros (Hw & Hs & Hp & _) Hx.
  unfold BilinearMapping.Sequential_forward.
  unfold bind at 1. unfold gets at 1. cbn [fst].
  unfold bind at 1. unfold lift at 1.
  unfold F.Conv2d_forward. rewrite Hx, Hw, Z.eqb_refl, Hp, Hs. cbn [fst snd].
  destruct (F.conv_out t kh 0 1) as [h'|]; [|discriminate].
  destruct (F.conv_out v kw 0 1) as [w'|]; [|discriminate].
  unfold zoom. unfold F.BatchNorm2d_forward. cbn [snd].
  intros H. exists h', w'. split; [reflexivity|]. split; [reflexivity|].
  match type of H with
  | context [ F.batch_norm ?ranks ?y ?b0 ?g0 ] =>
      pose proof (batch_norm_result_size ranks y r b0 g0) as Hsz;
      destruct (F.batch_norm ranks y b0 g0) as [[b' g'] rr]
  end.
  cbn in H, Hsz. exact (Hsz H).
Qed.

Lemma gcn_forward_same (m : BilinearMapping.t) (x : Tensor) (g : gen)
  (cin cout v n t : Z) (mode : bool) :
  gcn_cfg m cin cout v mode ->
  size x = [n; cin; t; v] ->
  1 <= n -> 0 <= cin -> 1 <= t -> 1 <= v ->
  (mode = true -> n * t * v <> 1) ->
  exists m' y,
    BilinearMapping.forward x m g = (m', g, Ok y)
    /\ size y = [n; cout; t; v].
Proof.
  intros Hcfg Hx Hn Hc Ht Hv Hbatch.
  destruct (gcn_forward_bilinear m x g cin cout v v 1 1 n t mode Hcfg Hx
              Hn Hc Ht Hv Hv Hbatch) as (b' & hidden & Sh & E).
  destruct Hcfg as (_ & _ & _ & Hrc & Hrb & _).
  destruct (BilinearMapping.gcn_residual m) as [rc rb] eqn:Er.
  cbn [fst snd] in Hrc, Hrb.
  destruct (Sequential_forward_ok rc rb x g cin cout 1 1 n t v t v mode
              Hrc Hrb Hx (conv_out_1 t Ht) (conv_out_1 v Hv) Hbatch)
    as (rb' & r & Er' & Sr).
  rewrite Er' in E. rewrite E.
  unfold bind, lift, ret, torch.iadd. rewrite Sh, Sr, broadcast_same4.
  cbn [torch.sizes_eqb]. rewrite !Z.eqb_refl. cbn [andb].
  do 2 eexists. split; reflexivity.
Qed.

(** In-place addition of the residual of an unequal-dimension mapping. *)
Lemma iadd_residual_mismatch (a b : Tensor) (n c t w t' : Z) :
  size a = [n; c; t; w] -> size b = [n; c; t'; 1] ->
  2 <= w -> t <> 1 -> t' <> 1 -> t' <> t ->
  torch.iadd a b = Raise RuntimeError_broadcast.
Proof.
  intros Ha Hb Hw Ht Ht' Hne. unfold torch.iadd, torch.broadcast.
  rewrite Ha, Hb. cbn [rev app torch.broadcast_rev].
  rewrite (proj2 (Z.eqb_neq w 1)) by lia.
  replace (1 =? 1) with true by reflexivity.
  rewrite (proj2 (Z.eqb_neq t t')) by lia.
  rewrite (proj2 (Z.eqb_neq t 1)) by lia.
  rewrite (proj2 (Z.eqb_neq t' 1)) by lia.
  reflexivity.
Qed.

Lemma gcn_forward_unequal (m : BilinearMapping.t) (x : Tensor) (g : gen)
  (cin cout g1 g2 n t : Z) (mode : bool) :
  gcn_cfg_gen m cin cout g1 g2 g2 g1 mode ->
  size x = [n; cin; t; g1] ->
  1 <= n -> 0 <= cin -> 1 <= t -> 1 <= g1 -> 2 <= g2 ->
  t <> g2 ->
  exists e, result_of (BilinearMapping.forward x m g) = Raise e.
Proof.
  intros Hcfg Hx Hn Hc Ht Hg1 Hg2 Hne.
  destruct (gcn_forward_bilinear m x g cin cout g1 g2 g2 g1 n t mode Hcfg Hx
              Hn Hc Ht Hg1 ltac:(lia) ltac:(intros _; nia))
    as (b' & hidden & Sh & E).
  destruct Hcfg as (_ & _ & _ & Hrc & _ & _).
  destruct (BilinearMapping.gcn_residual m) as [rc rb] eqn:Er.
  cbn [fst] in Hrc. rewrite E.
  pose proof (fun r => Sequential_forward_size rc rb x r g cin cout g2 g1
                         n t g1 Hrc Hx) as Hsz.
  destruct (BilinearMapping.Sequential_forward x (rc, rb) g)
    as [[rs' g'] [r|e]]; [|exists e; reflexivity].
  destruct (Hsz r eq_refl) as (h' & w' & Hh & Hw & Sr).
  unfold F.conv_out in Hh, Hw.
  destruct ((0 <? 1) && (0 <? g2) && (g2 <=? t + 2 * 0)) eqn:Ek;
    [|discriminate].
  destruct ((0 <? 1) && (0 <? g1) && (g1 <=? g1 + 2 * 0)); [|discriminate].
  injection Hh as <-. injection Hw as <-.
  apply andb_true_iff in Ek. destruct Ek as [_ Ek]. apply Z.leb_le in Ek.
  assert (Sr' : size r = [n; cout; t - g2 + 1; 1]).
  { rewrite Sr. rewrite !Z.div_1_r. repeat (f_equal; try lia). }
  exists RuntimeError_broadcast. unfold bind, lift, ret.
  rewrite (iadd_residual_mismatch hidden r n cout t g2 (t - g2 + 1));
    [reflexivity | exact Sh | exact Sr' | lia .. ].
Qed.




End Forward.

(** ** Sizes through the whole network *)

Section Network.
Context {K : Kernels}.






End Network.

(** ** A joint count that differs from [num_point] *)

Section WrongJoints.
Context {K : Kernels}.







End WrongJoints.

(** ** What a forward pass leaves unchanged *)

Section Preservation.
Context {K : Kernels}.

Lemma preserves_ret {S A P : Type} (f : S -> P) (a : A) :
  preserves f (ret a : M S A).
Proof. intros s g. reflexivity. Qed.

Lemma preserves_lift {S A P : Type} (f : S -> P) (r : result A) :
  preserves f (lift r : M S A).
Proof. intros s g. reflexivity. Qed.

Lemma preserves_gets {S A P : Type} (f : S -> P) (h : S -> A) :
  preserves f (gets h).
Proof. intros s g. reflexivity. Qed.

Lemma preserves_modify {S P : Type} (f : S -> P) (h : S -> S) :
  (forall s, f (h s) = f s) -> preserves f (modify h).
Proof. intros H s g. apply H. Qed.

Lemma preserves_bind {S A B P : Type} (f : S -> P) (m : M S A)
  (k : A -> M S B) :
  preserves f m -> (forall a, preserves f (k a)) -> preserves f (bind m k).
Proof.
  intros Hm Hk s g. unfold bind.
  specialize (Hm s g). destruct (m s g) as [[s' g'] [a|e]]; cbn in Hm |- *.
  - rewrite (Hk a s' g'). exact Hm.
  - exact Hm.
Qed.

Lemma preserves_zoom {S L A P Q : Type} (f : S -> P) (fL : L -> Q)
  (get : S -> L) (set : L -> S -> S) (m : M L A) :
  preserves fL m ->
  (forall l s, fL l = fL (get s) -> f (set l s) = f s) ->
  preserves f (zoom get set m).
Proof.
  intros Hm Hset s g. unfold zoom.
  specialize (Hm (get s) g). destruct (m (get s) g) as [[l' g'] r].
  cbn in Hm |- *. apply Hset. exact Hm.
Qed.

Lemma preserves_forM {S A B P : Type} (f : S -> P) (l : list A)
  (body : A -> B -> M S B) :
  (forall a b, preserves f (body a b)) ->
  forall acc, preserves f (forM l body acc).
Proof.
  intros Hb. induction l as [|a l IH]; intros acc; cbn [forM].
  - apply preserves_ret.
  - apply preserves_bind; [apply Hb | exact IH].
Qed.

Lemma batch_norm_preserves (ranks : list nat) (x : Tensor) :
  preserves BatchNorm_parameters (F.batch_norm ranks x).
Proof.
  unfold F.batch_norm.
  apply preserves_bind; [apply preserves_lift | intros _].
  apply preserves_bind; [apply preserves_gets | intros training].
  apply preserves_bind.
  { destruct training; [apply preserves_modify; reflexivity
                       | apply preserves_ret]. }
  intros _.
  apply preserves_bind; [apply preserves_lift | intros _].
  apply preserves_bind; [apply preserves_gets | intros n].
  apply preserves_bind; [apply preserves_lift | intros _].
  apply preserves_bind; [apply preserves_gets | intros b].
  apply preserves_bind; [|intros _; apply preserves_ret].
  destruct training; [apply preserves_modify; reflexivity
                     | apply preserves_ret].
Qed.

Lemma Dropout_forward_preserves {P : Type} (f : Dropout -> P) (x : Tensor) :
  preserves f (F.Dropout_forward x).
Proof.
  intros d g. unfold F.Dropout_forward.
  destruct (dp_training d); [destruct (k_dropout _ _ _)|]; reflexivity.
Qed.

Lemma Sequential_forward_preserves (x : Tensor) :
  preserves (fun s => Conv2d_parameters (fst s) ++ BatchNorm_parameters (snd s))
    (BilinearMapping.Sequential_forward x).
Proof.
  unfold BilinearMapping.Sequential_forward.
  apply preserves_bind; [apply preserves_gets | intros conv].
  apply preserves_bind; [apply preserves_lift | intros y].
  apply (preserves_zoom _ BatchNorm_parameters);
    [apply batch_norm_preserves|].
  intros l s H. cbn [fst snd]. now rewrite H.
Qed.

Lemma BilinearMapping_forward_preserves (x : Tensor) :
  preserves BilinearMapping_parameters (BilinearMapping.forward x).
Proof.
  unfold BilinearMapping.forward.
  apply preserves_bind; [apply preserves_lift | intros [[[N C] T] V]].
  apply preserves_bind; [apply preserves_gets | intros A].
  apply preserves_bind; [apply preserves_gets | intros n].
  apply preserves_bind; [apply preserves_gets | intros convs].
  apply preserves_bind; [apply preserves_lift | intros h].
  apply preserves_bind; [apply preserves_lift | intros h'].
  apply preserves_bind.
  { apply (preserves_zoom _ BatchNorm_parameters);
      [apply batch_norm_preserves|].
    intros l s H. unfold BilinearMapping_parameters.
    cbn [BilinearMapping.set_bn BilinearMapping.rand_graph
           BilinearMapping.g_conv BilinearMapping.gcn_residual
           BilinearMapping.bn]. now rewrite H. }
  intros h''.
  apply preserves_bind.
  { apply (preserves_zoom _
             (fun s => Conv2d_parameters (fst s) ++ BatchNorm_parameters (snd s)));
      [apply Sequential_forward_preserves|].
    intros l s H. unfold BilinearMapping_parameters.
    cbn [BilinearMapping.set_gcn_residual BilinearMapping.rand_graph
           BilinearMapping.g_conv BilinearMapping.gcn_residual
           BilinearMapping.bn].
    rewrite !app_assoc. rewrite <- (app_assoc _ (Conv2d_parameters (fst l))).
    rewrite H. now rewrite !app_assoc. }
  intros r.
  apply preserves_bind; [apply preserves_lift | intros h3].
  apply preserves_ret.
Qed.

Lemma TemporalConvolution_forward_preserves (x : Tensor) :
  preserves TemporalConvolution_parameters (TemporalConvolution.forward x).
Proof.
  unfold TemporalConvolution.forward.
  apply preserves_bind; [apply preserves_gets | intros conv].
  apply preserves_bind; [apply preserves_lift | intros y].
  apply (preserves_zoom _ BatchNorm_parameters);
    [apply batch_norm_preserves|].
  intros l s H. unfold TemporalConvolution_parameters.
  cbn [TemporalConvolution.set_bn TemporalConvolution.t_conv
         TemporalConvolution.bn]. now rewrite H.
Qed.

Lemma call_residual_preserves (x : Tensor) :
  preserves residual_parameters (ST_BLN_block.call_residual x).
Proof.
  intros [|m] g; cbn [ST_BLN_block.call_residual]; [reflexivity|].
  pose proof (TemporalConvolution_forward_preserves x m g) as H.
  destruct (TemporalConvolution.forward x m g) as [[m' g'] [y|e]];
    exact H.
Qed.

Lemma ST_BLN_block_forward_preserves (x : Tensor) :
  preserves ST_BLN_block_parameters (ST_BLN_block.forward x).
Proof.
  unfold ST_BLN_block.forward.
  apply preserves_bind.
  { apply (preserves_zoom _ BilinearMapping_parameters);
      [apply BilinearMapping_forward_preserves|].
    intros l s H. unfold ST_BLN_block_parameters.
    cbn [ST_BLN_block.set_gcn ST_BLN_block.gcn ST_BLN_block.tcn
           ST_BLN_block.residual]. now rewrite H. }
  intros h.
  apply preserves_bind.
  { apply (preserves_zoom _ TemporalConvolution_parameters);
      [apply TemporalConvolution_forward_preserves|].
    intros l s H. unfold ST_BLN_block_parameters.
    cbn [ST_BLN_block.set_tcn ST_BLN_block.gcn ST_BLN_block.tcn
           ST_BLN_block.residual]. now rewrite H. }
  intros y.
  apply preserves_bind.
  { apply (preserves_zoom _ residual_parameters);
      [apply call_residual_preserves|].
    intros l s H. unfold ST_BLN_block_parameters.
    cbn [ST_BLN_block.set_residual ST_BLN_block.gcn ST_BLN_block.tcn
           ST_BLN_block.residual]. now rewrite H. }
  intros r.
  apply preserves_bind; [apply preserves_lift | intros z].
  apply preserves_ret.
Qed.

Lemma update_same_parameters {V P : Type} (f : V -> list P) (k : string)
  (v v' : V) (d : list (string * V)) :
  lookup k d = Some v -> f v' = f v ->
  flat_map (fun kv => f (snd kv)) (update k v' d)
  = flat_map (fun kv => f (snd kv)) d.
Proof.
  intros Hl Hf. induction d as [|[k0 v0] d IH]; [reflexivity|].
  cbn [lookup update] in *. destruct (String.eqb k k0).
  - injection Hl as ->. cbn [flat_map snd]. now rewrite Hf.
  - cbn [flat_map snd]. now rewrite (IH Hl).
Qed.

Lemma zoom_item_preserves {V A P : Type} (f : V -> list P) (k : string)
  (m : M V A) :
  preserves f m ->
  preserves (flat_map (fun kv => f (snd kv))) (zoom_item k m).
Proof.
  intros Hm d g. unfold zoom_item.
  destruct (lookup k d) as [v|] eqn:Hl; [|reflexivity].
  specialize (Hm v g). destruct (m v g) as [[v' g'] r]. cbn in Hm |- *.
  now apply update_same_parameters with (v := v).
Qed.

Lemma STBLN_forward_layers_preserves (x : Tensor) :
  preserves STBLN_parameters (STBLN.forward_layers x).
Proof.
  unfold STBLN.forward_layers.
  apply preserves_bind; [apply preserves_gets | intros len].
  apply preserves_forM. intros i y.
  apply preserves_bind.
  { apply (preserves_zoom _ (fun _ : Dropout => tt));
      [apply Dropout_forward_preserves|].
    intros l s _. reflexivity. }
  intros z.
  apply (preserves_zoom _
           (flat_map (fun kv => ST_BLN_block_parameters (snd kv)))).
  - apply zoom_item_preserves. apply ST_BLN_block_forward_preserves.
  - intros l s H. unfold STBLN_parameters.
    cbn [STBLN.set_layers STBLN.data_bn STBLN.layers STBLN.fc]. now rewrite H.
Qed.

Lemma STBLN_forward_preserves (x : Tensor) :
  preserves STBLN_parameters (STBLN.forward x).
Proof.
  unfold STBLN.forward.
  apply preserves_bind; [apply preserves_lift | intros [[[[N C] T] V] M_]].
  apply preserves_bind; [apply preserves_lift | intros x1].
  apply preserves_bind.
  { apply (preserves_zoom _ BatchNorm_parameters);
      [apply batch_norm_preserves|].
    intros l s H. unfold STBLN_parameters.
    cbn [STBLN.set_data_bn STBLN.data_bn STBLN.layers STBLN.fc].
    now rewrite H. }
  intros x2.
  apply preserves_bind; [apply preserves_lift | intros x3].
  apply preserves_bind; [apply STBLN_forward_layers_preserves | intros x4].
  apply preserves_bind; [apply preserves_lift | intros c_new].
  apply preserves_bind; [apply preserves_lift | intros x5].
  apply preserves_bind; [apply preserves_lift | intros x6].
  apply preserves_bind; [apply preserves_gets | intros l].
  apply preserves_lift.
Qed.

End Preservation.

(** ** Evaluation mode *)

Section Evaluation.
Context {K : Kernels}.

Lemma quiet_ret {S A : Type} (a : A) (s : S) : quiet (ret a) s.
Proof. exists (Ok a). reflexivity. Qed.

Lemma quiet_lift {S A : Type} (r : result A) (s : S) : quiet (lift r) s.
Proof. exists r. reflexivity. Qed.

Lemma quiet_gets {S A : Type} (h : S -> A) (s : S) : quiet (gets h) s.
Proof. exists (Ok (h s)). reflexivity. Qed.

Lemma quiet_bind {S A B : Type} (m : M S A) (k : A -> M S B) (s : S) :
  quiet m s -> (forall a, quiet (k a) s) -> quiet (bind m k) s.
Proof.
  intros [[a|e] Hm] Hk.
  - destruct (Hk a) as [r Hr]. exists r. intros g.
    unfold bind. rewrite Hm. apply Hr.
  - exists (Raise e). intros g. unfold bind. now rewrite Hm.
Qed.

Lemma quiet_zoom {S L A : Type} (get : S -> L) (set : L -> S -> S)
  (m : M L A) (s : S) :
  quiet m (get s) -> set (get s) s = s -> quiet (zoom get set m) s.
Proof.
  intros [r Hm] Hs. exists r. intros g. unfold zoom. now rewrite Hm, Hs.
Qed.

Lemma quiet_forM {S A B : Type} (l : list A) (body : A -> B -> M S B)
  (s : S) :
  (forall a b, quiet (body a b) s) ->
  forall acc, quiet (forM l body acc) s.
Proof.
  intros Hb. induction l as [|a l IH]; intros acc; cbn [forM].
  - apply quiet_ret.
  - apply quiet_bind; [apply Hb | exact IH].
Qed.

Lemma quiet_bind_gets {S A B : Type} (h : S -> A) (k : A -> M S B) (s : S) :
  quiet (k (h s)) s -> quiet (bind (gets h) k) s.
Proof. intros [r Hr]. exists r. intros g. apply Hr. Qed.

Lemma batch_norm_quiet (ranks : list nat) (x : Tensor) (b : BatchNorm) :
  bn_training b = false -> quiet (F.batch_norm ranks x) b.
Proof.
  intros Hb. unfold F.batch_norm.
  apply quiet_bind; [apply quiet_lift | intros _].
  apply quiet_bind_gets. rewrite Hb.
  apply quiet_bind; [apply quiet_ret | intros _].
  apply quiet_bind; [apply quiet_lift | intros _].
  apply quiet_bind; [apply quiet_gets | intros n].
  apply quiet_bind; [apply quiet_lift | intros _].
  apply quiet_bind; [apply quiet_gets | intros b'].
  apply quiet_bind; [apply quiet_ret | intros _].
  apply quiet_ret.
Qed.

Lemma Dropout_forward_quiet (x : Tensor) (d : Dropout) :
  dp_training d = false -> quiet (F.Dropout_forward x) d.
Proof.
  intros Hd. exists (Ok x). intros g. unfold F.Dropout_forward.
  now rewrite Hd.
Qed.

Lemma BilinearMapping_forward_quiet (x : Tensor) (m : BilinearMapping.t) :
  quiet (BilinearMapping.forward x) (BilinearMapping.train false m).
Proof.
  unfold BilinearMapping.forward.
  apply quiet_bind; [apply quiet_lift | intros [[[N C] T] V]].
  apply quiet_bind; [apply quiet_gets | intros A].
  apply quiet_bind; [apply quiet_gets | intros n].
  apply quiet_bind; [apply quiet_gets | intros convs].
  apply quiet_bind; [apply quiet_lift | intros h].
  apply quiet_bind; [apply quiet_lift | intros h'].
  apply quiet_bind.
  { apply quiet_zoom; [|reflexivity]. now apply batch_norm_quiet. }
  intros h''.
  apply quiet_bind.
  { apply quiet_zoom; [|reflexivity].
    unfold BilinearMapping.Sequential_forward.
    apply quiet_bind; [apply quiet_gets | intros conv].
    apply quiet_bind; [apply quiet_lift | intros y].
    apply quiet_zoom; [|reflexivity]. now apply batch_norm_quiet. }
  intros r.
  apply quiet_bind; [apply quiet_lift | intros h3].
  apply quiet_ret.
Qed.

Lemma TemporalConvolution_forward_quiet (x : Tensor)
  (m : TemporalConvolution.t) :
  quiet (TemporalConvolution.forward x) (TemporalConvolution.train false m).
Proof.
  unfold TemporalConvolution.forward.
  apply quiet_bind; [apply quiet_gets | intros conv].
  apply quiet_bind; [apply quiet_lift | intros y].
  apply quiet_zoom; [|reflexivity]. now apply batch_norm_quiet.
Qed.

Lemma ST_BLN_block_forward_quiet (x : Tensor) (b : ST_BLN_block.t) :
  quiet (ST_BLN_block.forward x) (ST_BLN_block.train false b).
Proof.
  unfold ST_BLN_block.forward.
  apply quiet_bind.
  { apply quiet_zoom; [|reflexivity]. apply BilinearMapping_forward_quiet. }
  intros h.
  apply quiet_bind.
  { apply quiet_zoom; [|reflexivity].
    apply TemporalConvolution_forward_quiet. }
  intros y.
  apply quiet_bind.
  { apply quiet_zoom; [|reflexivity].
    cbn [ST_BLN_block.train ST_BLN_block.residual].
    destruct (ST_BLN_block.residual b) as [|r].
    - exists (Ok (Number 0)). reflexivity.
    - destruct (TemporalConvolution_forward_quiet x r) as [[z|e] Hr].
      + exists (Ok (TensorValue z)). intros g.
        cbn [ST_BLN_block.call_residual]. now rewrite Hr.
      + exists (Raise e). intros g.
        cbn [ST_BLN_block.call_residual]. now rewrite Hr. }
  intros r.
  apply quiet_bind; [apply quiet_lift | intros z].
  apply quiet_ret.
Qed.

Lemma update_lookup {V : Type} (k : string) (v : V) (d : list (string * V)) :
  lookup k d = Some v -> update k v d = d.
Proof.
  induction d as [|[k0 v0] d IH]; [reflexivity|].
  cbn [lookup update]. destruct (String.eqb k k0).
  - now intros [= ->].
  - intros H. now rewrite (IH H).
Qed.

Lemma lookup_map {V : Type} (f : V -> V) (k : string) (d : list (string * V)) :
  lookup k (map (fun kv => (fst kv, f (snd kv))) d)
  = option_map f (lookup k d).
Proof.
  induction d as [|[k0 v0] d IH]; [reflexivity|].
  cbn [map lookup fst snd]. destruct (String.eqb k k0); [reflexivity | exact IH].
Qed.

Lemma zoom_item_quiet {V A : Type} (k : string) (m : M V A)
  (d : list (string * V)) :
  (forall v, lookup k d = Some v -> quiet m v) ->
  quiet (zoom_item k m) d.
Proof.
  intros Hm.
  destruct (lookup k d) as [v|] eqn:Hl.
  - destruct (Hm v eq_refl) as [r Hr]. exists r. intros g.
    unfold zoom_item. now rewrite Hl, Hr, (update_lookup k v d Hl).
  - exists (Raise KeyError). intros g. unfold zoom_item. now rewrite Hl.
Qed.

Lemma STBLN_forward_layers_quiet (x : Tensor) (m : STBLN.t) :
  quiet (STBLN.forward_layers x) (STBLN.train false m).
Proof.
  unfold STBLN.forward_layers.
  apply quiet_bind; [apply quiet_gets | intros len].
  apply quiet_forM. intros i y.
  apply quiet_bind.
  { apply quiet_zoom; [|reflexivity]. now apply Dropout_forward_quiet. }
  intros z.
  apply quiet_zoom; [|reflexivity].
  apply zoom_item_quiet. intros v Hv.
  cbn [STBLN.train STBLN.layers] in Hv. rewrite lookup_map in Hv.
  destruct (lookup _ (STBLN.layers m)) as [b|]; [|discriminate].
  injection Hv as <-. apply ST_BLN_block_forward_quiet.
Qed.

Lemma STBLN_forward_quiet (x : Tensor) (m : STBLN.t) :
  quiet (STBLN.forward x) (STBLN.train false m).
Proof.
  unfold STBLN.forward.
  apply quiet_bind; [apply quiet_lift | intros [[[[N C] T] V] M_]].
  apply quiet_bind; [apply quiet_lift | intros x1].
  apply quiet_bind.
  { apply quiet_zoom; [|reflexivity]. now apply batch_norm_quiet. }
  intros x2.
  apply quiet_bind; [apply quiet_lift | intros x3].
  apply quiet_bind; [apply STBLN_forward_layers_quiet | intros x4].
  apply quiet_bind; [apply quiet_lift | intros c_new].
  apply quiet_bind; [apply quiet_lift | intros x5].
  apply quiet_bind; [apply quiet_lift | intros x6].
  apply quiet_bind; [apply quiet_gets | intros l].
  apply quiet_lift.
Qed.

End Evaluation.

(** ** Boundary cases *)

(** With equal joint dimensions [BilinearMapping.forward] returns, and the
    joint dimension of its output is [graph_dim2]. *)
Lemma BilinearMapping_equal_dims_shape {K : Kernels} (cin cout v n t : Z)
  (m : BilinearMapping.t) (mode : bool) (x : Tensor) (g : gen) :
  BilinearMapping.__init__ cin cout v v = Ok m ->
  size x = [n; cin; t; v] ->
  1 <= n -> 0 <= cin -> 1 <= t -> 1 <= v ->
  (mode = true -> n * t * v <> 1) ->
  exists y,
    result_of (BilinearMapping.forward x (BilinearMapping.train mode m) g) = Ok y
    /\ size y = [n; cout; t; v].
Proof.
  intros Hm Hx Hn Hc Ht Hv Hb.
  destruct (gcn_forward_same _ x g cin cout v n t mode
              (gcn_cfg_init m cin cout v mode Hm) Hx Hn Hc Ht Hv Hb)
    as (m' & y & E & Sy).
  exists y. rewrite E. split; [reflexivity | exact Sy].
Qed.

(** [BilinearMapping(2, 8, 4, 3)] on an input of size [2, 2, 5, 4]: the
    addition in place raises. *)
Lemma BilinearMapping_4_to_3_raises :
  result_of (BilinearMapping.forward (of_size [2; 2; 5; 4]) unequal_gcn 0%nat)
  = Raise RuntimeError_broadcast.
Proof. vm_compute. reflexivity. Qed.

(** A single sample with a single time step: in training mode the input
    normalization refuses one value per channel, in evaluation mode the
    network returns. *)
Lemma STBLN_single_value_training :
  result_of (STBLN.forward (of_size [1; 2; 1; 51; 1]) default_STBLN 0%nat)
  = Raise ValueError_batch_norm_size.
Proof. vm_compute. reflexivity. Qed.

Lemma STBLN_single_value_eval :
  exists y,
    result_of (STBLN.forward (of_size [1; 2; 1; 51; 1])
                 (STBLN.train false default_STBLN) 0%nat) = Ok y
    /\ size y = [1; 6].
Proof. eexists. split; vm_compute; reflexivity. Qed.

(** 34 joints with 3 coordinates have the 102 features [data_bn] expects
    for 51 joints with 2 coordinates: the wrong joint count is met by the
    matrix product of the first block. *)
Lemma STBLN_wrong_joints_same_features :
  result_of (STBLN.forward (of_size [2; 3; 30; 34; 1]) default_STBLN 0%nat)
  = Raise RuntimeError_matmul.
Proof. vm_compute. reflexivity. Qed.

(** * The claims *)



(** C2 fails on the code.  A [BilinearMapping] constructed with
    [graph_dim1 != graph_dim2] never returns on a 4-D input of size
    [N, C_in, T, graph_dim1] unless [T = graph_dim2] or [graph_dim2 = 1]:
    the residual convolution with kernel [(graph_dim2, graph_dim1)] lays
    [graph_dim2] over the time axis and returns size
    [N, C_out, T - graph_dim2 + 1, 1], which cannot be added in place to
    the bilinear branch of size [N, C_out, T, graph_dim2]. *)
Theorem BilinearMapping_unequal_dims_raise {K : Kernels}
  (cin cout g1 g2 n t : Z) (m : BilinearMapping.t) (mode : bool)
  (x : Tensor) (g : gen) :
  BilinearMapping.__init__ cin cout g1 g2 = Ok m ->
  g1 <> g2 -> 1 <= g1 -> 2 <= g2 ->
  size x = [n; cin; t; g1] ->
  1 <= n -> 0 <= cin -> 1 <= t ->
  t <> g2 ->
  exists e,
    result_of (BilinearMapping.forward x (BilinearMapping.train mode m) g)
    = Raise e.
Proof.
  intros Hm Hne Hg1 Hg2 Hx Hn Hc Ht Htg.
  pose proof (gcn_cfg_gen_init m cin cout g1 g2 mode Hm) as Hcfg.
  rewrite (proj2 (Z.eqb_neq g1 g2) Hne) in Hcfg.
  exact (gcn_forward_unequal _ x g cin cout g1 g2 n t mode Hcfg Hx
           Hn Hc Ht Hg1 Hg2 Htg).
Qed.

Lemma BilinearMapping_unequal_dims_raise_witness :
  exists e,
    result_of (BilinearMapping.forward (of_size [2; 2; 5; 4])
                 (BilinearMapping.train true unequal_gcn) 0%nat)
    = Raise e.
Proof.
  apply (BilinearMapping_unequal_dims_raise (K := sizes_only) 2 8 4 3 2 5
           unequal_gcn true (of_size [2; 2; 5; 4]) 0%nat).
  - reflexivity.
  - lia.
  - lia.
  - lia.
  - reflexivity.
  - lia.
  - lia.
  - lia.
  - lia.
Defined.

(** C3, as amended.  For a convolution layer and [bs != 1] the weights are
    drawn from a normal distribution with mean 0 and variance
    [2 / (weight.size(0) * weight.size(1) * weight.size(2) * bs)], that is
    [2 / (out_channels * in_channels * kernel_h * bs)], and the bias is set
    to zero. *)
Theorem weights_init_Conv2d_variance {K : Kernels} (cin cout kh kw : Z)
  (s p : Z * Z) (bs : Q) :
  ~ (bs == 1)%Q ->
  (0 < inject_Z (cout * cin * kh) * bs)%Q ->
  exists c,
    weights_init KConv2d (nn.Conv2d cin cout (kh, kw) s p) bs = Ok c
    /\ p_init (weight c) = normal_ 0 (2 / (inject_Z (cout * cin * kh) * bs))
    /\ variance (p_init (weight c))
       = Some (2 / (inject_Z (cout * cin * kh) * bs))%Q
    /\ p_init (bias c) = constant_ 0.
Proof.
  intros Hbs Hpos.
  unfold weights_init.
  destruct (Qeq_bool bs 1) eqn:E1.
  { apply Qeq_bool_iff in E1. contradiction. }
  cbn [nn.Conv2d weight p_size size_at nth_error rbind fst snd].
  unfold truediv.
  destruct (Qeq_bool (inject_Z (cout * cin * kh) * bs) 0) eqn:E0.
  { apply Qeq_bool_iff in E0. rewrite E0 in Hpos.
    exfalso. exact (Qlt_irrefl 0 Hpos). }
  cbn [rbind]. unfold math_sqrt_of.
  assert (Hr : (0 <= 2 / (inject_Z (cout * cin * kh) * bs))%Q).
  { apply Qlt_le_weak. unfold Qdiv.
    apply Qmult_lt_0_compat; [reflexivity|].
    now apply Qinv_lt_0_compat. }
  apply Qle_bool_iff in Hr. rewrite Hr. cbn [rbind].
  eexists. split; [reflexivity|]. repeat split.
Qed.

Lemma weights_init_Conv2d_variance_witness :
  exists c,
    @weights_init sizes_only KConv2d (nn.Conv2d 2 8 (1, 1) (1, 1) (0, 0)) 3
    = Ok c
    /\ p_init (weight c) = normal_ 0 (2 / (inject_Z (8 * 2 * 1) * 3))
    /\ variance (p_init (weight c)) = Some (2 / (inject_Z (8 * 2 * 1) * 3))%Q
    /\ p_init (bias c) = constant_ 0.
Proof.
  apply (weights_init_Conv2d_variance (K := sizes_only) 2 8 1 1 (1, 1) (0, 0) 3).
  - intros H. vm_compute in H. discriminate H.
  - reflexivity.
Defined.

(** C3, as stated, fails: for the 1x1 convolution from 2 to 8 channels of
    the first block and [bs = 3] the variance is [2 / (8 * 2 * 1 * 3)],
    not [2 / (8 * 1 * 1 * 3)]. *)
Lemma weights_init_variance_counts_in_channels :
  ~ (forall (cin cout kh kw : Z) (bs : Q) (c : Conv2d),
        ~ (bs == 1)%Q ->
        @weights_init sizes_only KConv2d
          (nn.Conv2d cin cout (kh, kw) (1, 1) (0, 0)) bs = Ok c ->
        exists r,
          variance (p_init (weight c)) = Some r
          /\ (r == 2 / (inject_Z (cout * kh * kw) * bs))%Q).
Proof.
  intros H.
  destruct (H 2 8 1 1 3%Q _ ltac:(intros E; vm_compute in E; discriminate E)
              eq_refl) as (r & Hr & Hq).
  injection Hr as <-. vm_compute in Hq. discriminate Hq.
Qed.

(** C4.  A block constructed with [residual=False] has the residual path
    [lambda x: 0]: the path returns the number 0 whatever [x] is, and the
    block computes [relu(tcn(gcn(x)))], given that adding the number 0 to a
    tensor leaves its values as they are. *)
Theorem residual_false_adds_zero {K : Kernels}
  (cin cout graph_dim1 graph_dim2 stride : Z) (b0 : ST_BLN_block.t)
  (mode : bool) (x : Tensor) (g : gen) :
  (forall t : Tensor, k_add_scalar t 0 = values t) ->
  ST_BLN_block.__init__ cin cout graph_dim1 graph_dim2 stride false = Ok b0 ->
  result_of (ST_BLN_block.call_residual x
               (ST_BLN_block.residual (ST_BLN_block.train mode b0)) g)
  = Ok (Number 0)
  /\ ST_BLN_block.forward x (ST_BLN_block.train mode b0) g
     = (h <- zoom ST_BLN_block.gcn ST_BLN_block.set_gcn
               (BilinearMapping.forward x) ;;
        y <- zoom ST_BLN_block.tcn ST_BLN_block.set_tcn
               (TemporalConvolution.forward h) ;;
        ret (F.relu y)) (ST_BLN_block.train mode b0) g.
Proof.
  intros Hzero Hb.
  assert (Hres : ST_BLN_block.residual b0 = ST_BLN_block.zero_lambda).
  { unfold ST_BLN_block.__init__ in Hb. cbn [negb] in Hb. inv_results.
    reflexivity. }
  destruct b0 as [gcn0 tcn0 res0]. cbn [ST_BLN_block.residual] in Hres.
  subst res0. cbn [ST_BLN_block.train ST_BLN_block.residual].
  split; [reflexivity|].
  unfold ST_BLN_block.forward, bind, zoom, lift, ret.
  cbn [ST_BLN_block.train ST_BLN_block.gcn ST_BLN_block.tcn
         ST_BLN_block.residual].
  destruct (BilinearMapping.forward x (BilinearMapping.train mode gcn0) g)
    as [[l1 g1'] [h|e]]; [|reflexivity].
  cbn [ST_BLN_block.train ST_BLN_block.gcn ST_BLN_block.tcn
         ST_BLN_block.residual ST_BLN_block.set_gcn].
  destruct (TemporalConvolution.forward h (TemporalConvolution.train mode tcn0)
              g1') as [[l2 g2'] [y|e]]; [|reflexivity].
  cbn [ST_BLN_block.train ST_BLN_block.residual ST_BLN_block.set_tcn
         ST_BLN_block.set_gcn ST_BLN_block.set_residual
         ST_BLN_block.call_residual ST_BLN_block.add ST_BLN_block.gcn
         ST_BLN_block.tcn].
  unfold torch.add_scalar. rewrite Hzero. destruct y as [sy vy]. reflexivity.
Qed.

Lemma residual_false_adds_zero_witness :
  result_of (ST_BLN_block.call_residual (of_size [2; 2; 30; 51])
               (ST_BLN_block.residual (ST_BLN_block.train true layer1_block))
               0%nat)
  = Ok (Number 0)
  /\ ST_BLN_block.forward (of_size [2; 2; 30; 51])
       (ST_BLN_block.train true layer1_block) 0%nat
     = (h <- zoom ST_BLN_block.gcn ST_BLN_block.set_gcn
               (BilinearMapping.forward (of_size [2; 2; 30; 51])) ;;
        y <- zoom ST_BLN_block.tcn ST_BLN_block.set_tcn
               (TemporalConvolution.forward h) ;;
        ret (F.relu y)) (ST_BLN_block.train true layer1_block) 0%nat.
Proof.
  apply (residual_false_adds_zero (K := sizes_only) 2 8 51 51 1 layer1_block
           true (of_size [2; 2; 30; 51]) 0%nat).
  - intros t. destruct (values t). reflexivity.
  - reflexivity.
Defined.



(** C6, as amended.  A [TemporalConvolution] with stride 1 and an odd
    kernel height [k] pads by [(k - 1) / 2] on both sides and returns a
    tensor with the time length of its input.  The module has at least one
    channel on each side and the input is not empty; [k] is at most
    [2 ^ 53], the range in which the float quotient of
    [int((kernel_size_ - 1) / 2)] is exact. *)
Theorem TemporalConvolution_odd_kernel_keeps_time {K : Kernels}
  (cin cout kj k n t v : Z) (m : TemporalConvolution.t) (mode : bool)
  (x : Tensor) (g : gen) :
  TemporalConvolution.__init__ cin cout kj k 1 = Ok m ->
  Z.odd k = true -> 1 <= k <= 2 ^ 53 ->
  1 <= cin -> 1 <= cout ->
  1 <= kj <= v -> 1 <= n -> 1 <= t ->
  size x = [n; cin; t; v] ->
  (mode = true -> n * t * (v - kj + 1) <> 1) ->
  exists y,
    result_of (TemporalConvolution.forward x (TemporalConvolution.train mode m) g)
    = Ok y
    /\ size y = [n; cout; t; v - kj + 1]
    /\ nth 2 (size y) 0 = nth 2 (size x) 0.
Proof.
  intros Hm Hodd [Hk _] _ _ Hkj _ Ht Hx Hb.
  unfold TemporalConvolution.__init__ in Hm. cbv zeta in Hm. inv_results.
  match goal with
  | H : weights_init KConv2d _ _ = Ok _ |- _ =>
      apply conv_cfg_init in H; destruct H as (Hw & Hs & Hp & _)
  end.
  match goal with
  | H : weights_init KBatchNorm2d _ _ = Ok _ |- _ =>
      apply (bn_cfg_init _ _ _ mode) in H; destruct H as (Hbf & Hbt)
  end.
  unfold TemporalConvolution.forward.
  unfold bind at 1. unfold gets at 1.
  unfold bind at 1. unfold lift at 1.
  cbn [TemporalConvolution.train TemporalConvolution.t_conv
         TemporalConvolution.bn].
  erewrite Conv2d_forward_ok;
    [ | exact Hx | exact Hw
      | rewrite Hp, Hs; apply conv_out_odd; assumption
      | rewrite Hp, Hs; apply conv_out_valid; assumption ].
  unfold zoom at 1. unfold F.BatchNorm2d_forward.
  cbn [TemporalConvolution.bn].
  rewrite batch_norm_ok;
    [ | reflexivity
      | intros Hmode; apply Hb; rewrite <- Hbt; exact Hmode
      | symmetry; exact Hbf ].
  eexists. split; [reflexivity|]. split; [reflexivity|].
  rewrite Hx. reflexivity.
Qed.

Lemma TemporalConvolution_odd_kernel_keeps_time_witness :
  exists y,
    result_of (TemporalConvolution.forward (of_size [2; 8; 30; 51])
                 (TemporalConvolution.train true default_tcn) 0%nat) = Ok y
    /\ size y = [2; 8; 30; 51 - 1 + 1]
    /\ nth 2 (size y) 0 = nth 2 (size (of_size [2; 8; 30; 51])) 0.
Proof.
  apply (TemporalConvolution_odd_kernel_keeps_time (K := sizes_only)
           8 8 1 9 2 30 51 default_tcn true (of_size [2; 8; 30; 51]) 0%nat).
  - reflexivity.
  - reflexivity.
  - lia.
  - lia.
  - lia.
  - lia.
  - lia.
  - lia.
  - reflexivity.
  - intros _. lia.
Defined.

(** C6, as stated, fails: with the even kernel height 4 the padding is 1
    and ten time steps become nine. *)
Lemma TemporalConvolution_even_kernel_shrinks :
  ~ (forall (k : Z) (m : @TemporalConvolution.t sizes_only)
       (x : @Tensor sizes_only) (g : nat) (y : @Tensor sizes_only),
        1 <= k ->
        TemporalConvolution.__init__ 2 8 1 k 1 = Ok m ->
        result_of (TemporalConvolution.forward x m g) = Ok y ->
        nth 2 (size y) 0 = nth 2 (size x) 0).
Proof.
  intros H.
  specialize (H 4 _ (of_size [2; 2; 10; 4]) 0%nat _ ltac:(lia) eq_refl eq_refl).
  discriminate H.
Qed.




(** C8, as amended.  A forward pass never changes a learned parameter,
    whatever the input and whether it returns or raises; in evaluation mode
    it leaves the whole model, the stored state of the normalization layers
    included, as it was. *)
Theorem forward_keeps_parameters {K : Kernels} (m : STBLN.t) (x : Tensor)
  (g : gen) :
  STBLN_parameters (state_of (STBLN.forward x m g)) = STBLN_parameters m
  /\ state_of (STBLN.forward x (STBLN.train false m) g) = STBLN.train false m.
Proof.
  split.
  - apply STBLN_forward_preserves.
  - destruct (STBLN_forward_quiet x m) as [r Hr]. now rewrite Hr.
Qed.

(** C8, as stated, fails: a freshly constructed model is in training mode,
    and one forward pass moves [num_batches_tracked] of the input
    normalization from 0 to 1. *)
Lemma forward_counts_batches :
  ~ (forall (m : @STBLN.t sizes_only) (x : @Tensor sizes_only) (g : nat),
        num_batches_tracked (STBLN.data_bn (state_of (STBLN.forward x m g)))
        = num_batches_tracked (STBLN.data_bn m)).
Proof.
  intros H.
  specialize (H default_STBLN (of_size [2; 2; 30; 51; 1]) 0%nat).
  vm_compute in H. discriminate H.
Qed.

(** C9.  In evaluation mode two forward passes on the same input give the
    same result: the second pass starts from the model and the generator
    state the first one left behind, and returns the same tensor or raises
    the same exception. *)
Theorem eval_forward_deterministic {K : Kernels} (m : STBLN.t) (x : Tensor)
  (g1 g2 : gen) :
  result_of (STBLN.forward x
               (state_of (STBLN.forward x (STBLN.train false m) g1)) g2)
  = result_of (STBLN.forward x (STBLN.train false m) g1).
Proof.
  destruct (STBLN_forward_quiet x m) as [r Hr].
  rewrite (Hr g1). cbn [state_of fst]. now rewrite (Hr g2).
Qed.

(** C10.  In [BilinearMapping.__init__] with [graph_dim1 == graph_dim2]
    the residual path is the pair of layers exactly as the library
    constructors made them: [weights_init] is not applied and all four
    parameters keep the library's default initial values.  With
    [graph_dim1 != graph_dim2] both layers of the residual path went
    through [weights_init] with [bs = 1]. *)
Theorem gcn_residual_initialization {K : Kernels} (cin cout g1 g2 : Z)
  (m : BilinearMapping.t) :
  BilinearMapping.__init__ cin cout g1 g2 = Ok m ->
  (g1 = g2 ->
   BilinearMapping.gcn_residual m
   = (nn.Conv2d cin cout (1, 1) (1, 1) (0, 0), F.new_BatchNorm cout)
   /\ map p_init
        (Conv2d_parameters (fst (BilinearMapping.gcn_residual m))
           ++ BatchNorm_parameters (snd (BilinearMapping.gcn_residual m)))
      = [library_default; library_default; library_default; library_default])
  /\ (g1 <> g2 ->
      weights_init KConv2d (nn.Conv2d cin cout (g2, g1) (1, 1) (0, 0)) 1
      = Ok (fst (BilinearMapping.gcn_residual m))
      /\ weights_init KBatchNorm2d (F.new_BatchNorm cout) 1
         = Ok (snd (BilinearMapping.gcn_residual m))
      /\ map p_init
           (Conv2d_parameters (fst (BilinearMapping.gcn_residual m))
              ++ BatchNorm_parameters (snd (BilinearMapping.gcn_residual m)))
         = [kaiming_normal_fan_out; constant_ 0; constant_ 1; constant_ 0]).
Proof.
  intros Hm. unfold BilinearMapping.__init__ in Hm. cbv zeta in Hm.
  apply rbind_Ok_inv in Hm. destruct Hm as (rg & _ & Hm).
  split; intros Hg.
  - subst g2. rewrite Z.eqb_refl in Hm. cbn [negb] in Hm.
    apply rbind_Ok_inv in Hm. destruct Hm as (convs & _ & Hm).
    cbn [rbind] in Hm.
    apply rbind_Ok_inv in Hm. destruct Hm as (b & _ & Hm).
    injection Hm as <-. cbn [BilinearMapping.gcn_residual]. split; reflexivity.
  - rewrite (proj2 (Z.eqb_neq g1 g2) Hg) in Hm. cbn [negb] in Hm.
    apply rbind_Ok_inv in Hm. destruct Hm as (convs & _ & Hm).
    apply rbind_Ok_inv in Hm. destruct Hm as (r & Hr & Hm).
    apply rbind_Ok_inv in Hm. destruct Hm as (b & _ & Hm).
    injection Hm as <-. cbn [BilinearMapping.gcn_residual].
    apply rbind_Ok_inv in Hr. destruct Hr as (c & Hc & Hr).
    apply rbind_Ok_inv in Hr. destruct Hr as (rb & Hrb & Hr).
    injection Hr as <-. cbn [fst snd].
    split; [exact Hc|]. split; [exact Hrb|].
    cbn in Hc, Hrb. injection Hc as <-. injection Hrb as <-. reflexivity.
Qed.

Lemma gcn_residual_initialization_witness :
  (51 = 51 ->
   BilinearMapping.gcn_residual layer1_gcn
   = (nn.Conv2d 2 8 (1, 1) (1, 1) (0, 0), F.new_BatchNorm 8)
   /\ map p_init
        (Conv2d_parameters (fst (BilinearMapping.gcn_residual layer1_gcn))
           ++ BatchNorm_parameters
                (snd (BilinearMapping.gcn_residual layer1_gcn)))
      = [library_default; library_default; library_default; library_default])
  /\ (51 <> 51 ->
      @weights_init sizes_only KConv2d (nn.Conv2d 2 8 (51, 51) (1, 1) (0, 0)) 1
      = Ok (fst (BilinearMapping.gcn_residual layer1_gcn))
      /\ @weights_init sizes_only KBatchNorm2d (F.new_BatchNorm 8) 1
         = Ok (snd (BilinearMapping.gcn_residual layer1_gcn))
      /\ map p_init
           (Conv2d_parameters (fst (BilinearMapping.gcn_residual layer1_gcn))
              ++ BatchNorm_parameters
                   (snd (BilinearMapping.gcn_residual layer1_gcn)))
         = [kaiming_normal_fan_out; constant_ 0; constant_ 1; constant_ 0]).
Proof.
  apply (gcn_residual_initialization (K := sizes_only) 2 8 51 51 layer1_gcn).
  reflexivity.
Defined.

(** * Further properties of the code *)

(** ** [import_class] *)

(** [name.split('.')] is never the empty list. *)
Lemma split_dot_not_nil (s : string) : split_dot s <> [].
Proof.
  induction s as [|c s IH]; cbn [split_dot]; [discriminate|].
  destruct (Ascii.eqb c dot); [discriminate|].
  destruct (split_dot s); discriminate.
Qed.

Lemma split_dot_no_dot (s : string) : has_dot s = false -> split_dot s = [s].
Proof.
  induction s as [|c s IH]; cbn [split_dot has_dot]; [reflexivity|].
  destruct (Ascii.eqb c dot); [discriminate|]. cbn [orb]. intros H.
  now rewrite (IH H).
Qed.

Lemma split_dot_app (p q : string) :
  split_dot (p ++ String dot q) = split_dot p ++ split_dot q.
Proof.
  induction p as [|c p IH]; cbn [String.append split_dot].
  - reflexivity.
  - rewrite IH. destruct (Ascii.eqb c dot); [reflexivity|].
    destruct (split_dot p) as [|h t] eqn:E; [|reflexivity].
    now destruct (split_dot_not_nil p).
Qed.

(** A loop over a concatenation is the two loops in sequence. *)
Lemma for_app {A B : Type} (l1 l2 : list A) (body : A -> B -> result B)
  (acc : B) :
  for_ (l1 ++ l2) body acc = (a <~ for_ l1 body acc ;; for_ l2 body a).
Proof.
  revert acc. induction l1 as [|x l1 IH]; intros acc; cbn [app for_ rbind].
  - reflexivity.
  - destruct (body x acc) as [a|e]; cbn [rbind]; [apply IH | reflexivity].
Qed.

(** X1.  For a name without a dot [import_class] is the import of that name:
    nothing is looked up in the imported module, and the result or the
    exception of [__import__] is the result or the exception of
    [import_class]. *)
Theorem import_class_top_level (obj : Type) (import_ : string -> result obj)
  (getattr : obj -> string -> result obj) (name : string) :
  has_dot name = false ->
  import_class obj import_ getattr name = import_ name.
Proof.
  intros H. unfold import_class. cbv zeta. rewrite (split_dot_no_dot name H).
  cbn [nth_error tl rbind for_]. destruct (import_ name); reflexivity.
Qed.

Lemma import_class_top_level_witness :
  import_class (list string) path_import path_getattr "torch"
  = path_import "torch".
Proof.
  apply (import_class_top_level (list string) path_import path_getattr "torch").
  reflexivity.
Defined.

(** X2.  One more component: [import_class (p + '.' + c)], for an attribute
    name [c] without a dot, is [getattr (import_class p) c]; when
    [import_class p] raises, so does the longer name, with the same
    exception and without any lookup of [c]. *)
Theorem import_class_attribute (obj : Type) (import_ : string -> result obj)
  (getattr : obj -> string -> result obj) (p c : string) :
  has_dot c = false ->
  import_class obj import_ getattr (p ++ String dot c)
  = (m <~ import_class obj import_ getattr p ;; getattr m c).
Proof.
  intros Hc. unfold import_class. cbv zeta.
  rewrite split_dot_app, (split_dot_no_dot c Hc).
  destruct (split_dot p) as [|h t] eqn:E; [now destruct (split_dot_not_nil p)|].
  cbn [app nth_error tl rbind].
  destruct (import_ h) as [m|e]; cbn [rbind]; [|reflexivity].
  rewrite for_app. destruct (for_ t _ m) as [a|e]; cbn [rbind for_]; [|reflexivity].
  destruct (getattr a c); reflexivity.
Qed.

Lemma import_class_attribute_witness :
  import_class (list string) path_import path_getattr "model.stbln.STBLN"
  = (m <~ import_class (list string) path_import path_getattr "model.stbln" ;;
     path_getattr m "STBLN").
Proof.
  apply (import_class_attribute (list string) path_import path_getattr
           "model.stbln" "STBLN").
  reflexivity.
Defined.

(** ** [weights_init] *)

Section Initialization.
Context {K : Kernels}.

(** The branch [bs != 1] of [weights_init] on a convolution whose
    radicand is positive. *)
Lemma weights_init_Conv2d_normal (c : Conv2d) (s0 s1 s2 s3 : Z) (bs : Q) :
  p_size (weight c) = [s0; s1; s2; s3] ->
  ~ (bs == 1)%Q ->
  (0 < inject_Z (s0 * s1 * s2) * bs)%Q ->
  weights_init KConv2d c bs
  = Ok (init_Conv2d (normal_ 0 (2 / (inject_Z (s0 * s1 * s2) * bs)))
          (constant_ 0) c).
Proof.
  intros Hs Hbs Hpos. unfold weights_init.
  destruct (Qeq_bool bs 1) eqn:E1.
  { apply Qeq_bool_iff in E1. contradiction. }
  rewrite Hs. cbn [size_at nth_error rbind]. unfold truediv.
  destruct (Qeq_bool (inject_Z (s0 * s1 * s2) * bs) 0) eqn:E0.
  { apply Qeq_bool_iff in E0. rewrite E0 in Hpos.
    exfalso. exact (Qlt_irrefl 0 Hpos). }
  cbn [rbind]. unfold math_sqrt_of.
  assert (Hr : (0 <= 2 / (inject_Z (s0 * s1 * s2) * bs))%Q).
  { apply Qlt_le_weak. unfold Qdiv.
    apply Qmult_lt_0_compat; [reflexivity|]. now apply Qinv_lt_0_compat. }
  apply Qle_bool_iff in Hr. rewrite Hr. reflexivity.
Qed.

Lemma inject_Z_pos3 (z : Z) : 0 < z -> (0 < inject_Z z * 3)%Q.
Proof.
  intros Hz. apply Qmult_lt_0_compat; [|reflexivity].
  unfold Qlt. cbn. lia.
Qed.

Lemma g_conv_init (cin cout : Z) :
  1 <= cin -> 1 <= cout ->
  weights_init KConv2d (nn.Conv2d cin cout (1, 1) (1, 1) (0, 0)) (inject_Z 3)
  = Ok (init_Conv2d (normal_ 0 (2 / (inject_Z (cout * cin * 1) * 3)))
          (constant_ 0) (nn.Conv2d cin cout (1, 1) (1, 1) (0, 0))).
Proof.
  intros Hi Ho.
  apply (weights_init_Conv2d_normal _ cout cin 1 1 3); [reflexivity | |].
  - intros E. vm_compute in E. discriminate E.
  - apply inject_Z_pos3. nia.
Qed.

(** What [BilinearMapping.__init__] builds. *)
Lemma BilinearMapping_init_eq (cin cout g1 g2 : Z) :
  1 <= cin -> 1 <= cout -> 0 <= g1 -> 0 <= g2 ->
  BilinearMapping.__init__ cin cout g1 g2
  = let conv := init_Conv2d (normal_ 0 (2 / (inject_Z (cout * cin * 1) * 3)))
                  (constant_ 0) (nn.Conv2d cin cout (1, 1) (1, 1) (0, 0)) in
    Ok {| BilinearMapping.num_subset := 3;
          BilinearMapping.rand_graph :=
            {| p_size := [3; g1; g2]; p_init := numpy_random_rand |};
          BilinearMapping.g_conv := [conv; conv; conv];
          BilinearMapping.gcn_residual :=
            if negb (g1 =? g2)
            then (init_Conv2d kaiming_normal_fan_out (constant_ 0)
                    (nn.Conv2d cin cout (g2, g1) (1, 1) (0, 0)),
                  init_BatchNorm (constant_ 1) (constant_ 0)
                    (F.new_BatchNorm cout))
            else (nn.Conv2d cin cout (1, 1) (1, 1) (0, 0),
                  F.new_BatchNorm cout);
          BilinearMapping.bn :=
            init_BatchNorm (constant_ (1 # 1000000)) (constant_ 0)
              (F.new_BatchNorm cout) |}.
Proof.
  intros Hi Ho Hg1 Hg2. unfold BilinearMapping.__init__. cbv zeta.
  unfold BilinearMapping.np_random_rand. cbn [forallb].
  rewrite (proj2 (Z.leb_le 0 g1) Hg1), (proj2 (Z.leb_le 0 g2) Hg2).
  replace (0 <=? 3) with true by reflexivity. cbn [andb rbind].
  change (range 3) with [0; 1; 2]. cbn [for_].
  rewrite (g_conv_init cin cout Hi Ho). cbn [rbind app].
  destruct (g1 =? g2); reflexivity.
Qed.

(** What [TemporalConvolution.__init__] builds. *)
Lemma TemporalConvolution_init_eq (cin cout kj k s : Z) :
  TemporalConvolution.__init__ cin cout kj k s
  = Ok {| TemporalConvolution.t_conv :=
            init_Conv2d kaiming_normal_fan_out (constant_ 0)
              (nn.Conv2d cin cout (k, kj) (s, 1) (Z.quot (k - 1) 2, 0));
          TemporalConvolution.bn :=
            init_BatchNorm (constant_ 1) (constant_ 0) (F.new_BatchNorm cout) |}.
Proof. reflexivity. Qed.

Lemma ST_BLN_block_init_ok (cin cout g1 g2 s : Z) (res : bool) :
  1 <= cin -> 1 <= cout -> 0 <= g1 -> 0 <= g2 ->
  exists b, ST_BLN_block.__init__ cin cout g1 g2 s res = Ok b.
Proof.
  intros Hi Ho Hg1 Hg2. unfold ST_BLN_block.__init__.
  rewrite (BilinearMapping_init_eq cin cout g1 g2 Hi Ho Hg1 Hg2). cbv zeta.
  cbn [rbind]. rewrite !TemporalConvolution_init_eq. cbn [rbind].
  destruct res; cbn [negb]; [destruct (g1 =? g2); cbn [negb]|];
    rewrite ?TemporalConvolution_init_eq; cbn [rbind]; eexists; reflexivity.
Qed.

Lemma weights_init_Linear_pos (l : Linear) (bs : Q) :
  (0 < bs)%Q ->
  weights_init KLinear l bs = Ok (init_Linear_weight (normal_ 0 (2 / bs)) l).
Proof.
  intros H. unfold weights_init, truediv, math_sqrt_of.
  destruct (Qeq_bool bs 0) eqn:E0.
  { apply Qeq_bool_iff in E0. rewrite E0 in H.
    exfalso. exact (Qlt_irrefl 0 H). }
  cbn [rbind].
  assert (Hr : (0 <= 2 / bs)%Q).
  { apply Qlt_le_weak. unfold Qdiv.
    apply Qmult_lt_0_compat; [reflexivity|]. now apply Qinv_lt_0_compat. }
  apply Qle_bool_iff in Hr. rewrite Hr. reflexivity.
Qed.

Lemma block_init_channels (cin cout g1 g2 s : Z) (res : bool)
  (b : ST_BLN_block.t) :
  ST_BLN_block.__init__ cin cout g1 g2 s res = Ok b ->
  block_in_channels b = cin /\ block_out_channels b = cout
  /\ has_residual_module b = res.
Proof.
  unfold ST_BLN_block.__init__. intros H.
  apply rbind_Ok_inv in H. destruct H as (gcn0 & Hg & H).
  apply rbind_Ok_inv in H. destruct H as (tcn0 & _ & H).
  apply rbind_Ok_inv in H. destruct H as (r & Hr & H).
  injection H as <-.
  destruct (gcn_cfg_gen_init gcn0 cin cout g1 g2 true Hg)
    as (_ & _ & _ & (_ & _ & _ & Hi & Ho) & _).
  unfold block_in_channels, block_out_channels, has_residual_module.
  cbn [ST_BLN_block.gcn ST_BLN_block.residual].
  cbn [BilinearMapping.train BilinearMapping.gcn_residual fst] in Hi, Ho.
  split; [exact Hi|]. split; [exact Ho|].
  destruct res; cbn [negb] in Hr.
  - destruct (negb (g1 =? g2)); inv_results; reflexivity.
  - injection Hr as <-. reflexivity.
Qed.


End Initialization.

(** X3.  [weights_init] overwrites: what an earlier call left in the layer
    has no influence on a later call.  Applied to the layer returned by
    [weights_init] with [bs1], the call with [bs2] gives what it gives on
    the original layer, result or exception. *)
Theorem weights_init_last_wins {K : Kernels} (k : kind) (m m1 : layer k)
  (bs1 bs2 : Q) :
  weights_init k m bs1 = Ok m1 ->
  weights_init k m1 bs2 = weights_init k m bs2.
Proof.
  destruct k; cbn [weights_init layer] in *.
  - destruct (Qeq_bool bs1 1).
    + intros [= <-]. reflexivity.
    + intros H. inv_results. reflexivity.
  - intros [= <-]. reflexivity.
  - intros [= <-]. reflexivity.
  - intros H. inv_results. reflexivity.
Qed.

Lemma weights_init_last_wins_witness :
  @weights_init sizes_only KConv2d
    (init_Conv2d (normal_ 0 (2 / (inject_Z (8 * 2 * 1) * 3))) (constant_ 0)
       (nn.Conv2d 2 8 (1, 1) (1, 1) (0, 0))) 1
  = @weights_init sizes_only KConv2d (nn.Conv2d 2 8 (1, 1) (1, 1) (0, 0)) 1.
Proof.
  apply (weights_init_last_wins (K := sizes_only) KConv2d
           (nn.Conv2d 2 8 (1, 1) (1, 1) (0, 0)) _ 3 1).
  reflexivity.
Defined.

(** X4.  [weights_init] changes how the values of a layer are drawn, never
    the sizes of its parameters, for every kind of layer and every [bs]. *)
Theorem weights_init_keeps_sizes {K : Kernels} (k : kind) (m m' : layer k)
  (bs : Q) :
  weights_init k m bs = Ok m' ->
  map p_size (layer_parameters k m') = map p_size (layer_parameters k m).
Proof.
  destruct k; cbn [weights_init layer layer_parameters] in *.
  - destruct (Qeq_bool bs 1).
    + intros [= <-]. reflexivity.
    + intros H. inv_results. reflexivity.
  - intros [= <-]. reflexivity.
  - intros [= <-]. reflexivity.
  - intros H. inv_results. reflexivity.
Qed.

Lemma weights_init_keeps_sizes_witness :
  map p_size
    (layer_parameters (K := sizes_only) KLinear
       (init_Linear_weight (normal_ 0 (2 / 6)) (nn.Linear 64 6)))
  = map p_size (layer_parameters (K := sizes_only) KLinear (nn.Linear 64 6)).
Proof.
  apply (weights_init_keeps_sizes (K := sizes_only) KLinear (nn.Linear 64 6)
           _ 6).
  reflexivity.
Defined.

(** X5.  [weights_init] on a linear layer: [bs = 0] raises
    [ZeroDivisionError] (from [2. / bs]), a negative [bs] raises the
    [ValueError] of [math.sqrt], and a positive [bs] draws the weight from a
    normal distribution with mean 0 and variance [2 / bs] and leaves the
    bias and the sizes as they were. *)
Theorem weights_init_Linear_cases {K : Kernels} (l : Linear) (bs : Q) :
  ((bs == 0)%Q -> weights_init KLinear l bs = Raise ZeroDivisionError)
  /\ ((bs < 0)%Q -> weights_init KLinear l bs = Raise ValueError_math_domain)
  /\ ((0 < bs)%Q ->
      exists l',
        weights_init KLinear l bs = Ok l'
        /\ p_init (l_weight l') = normal_ 0 (2 / bs)
        /\ l_bias l' = l_bias l
        /\ p_size (l_weight l') = p_size (l_weight l)).
Proof.
  unfold weights_init, truediv, math_sqrt_of. repeat split.
  - intros H. apply Qeq_bool_iff in H. now rewrite H.
  - intros H.
    destruct (Qeq_bool bs 0) eqn:E0.
    { apply Qeq_bool_iff in E0. rewrite E0 in H.
      exfalso. exact (Qlt_irrefl 0 H). }
    cbn [rbind].
    destruct (Qle_bool 0 (2 / bs)) eqn:E; [|reflexivity].
    apply Qle_bool_iff in E. exfalso.
    assert (Hneg : (2 / bs < 0)%Q).
    { unfold Qdiv. destruct bs as [n d]. unfold Qlt, Qinv, Qmult in *.
      cbn in *. destruct n; cbn in *; lia. }
    exact (Qlt_irrefl 0 (Qle_lt_trans _ _ _ E Hneg)).
  - intros H.
    destruct (Qeq_bool bs 0) eqn:E0.
    { apply Qeq_bool_iff in E0. rewrite E0 in H.
      exfalso. exact (Qlt_irrefl 0 H). }
    cbn [rbind].
    assert (Hr : (0 <= 2 / bs)%Q).
    { apply Qlt_le_weak. unfold Qdiv.
      apply Qmult_lt_0_compat; [reflexivity|]. now apply Qinv_lt_0_compat. }
    apply Qle_bool_iff in Hr. rewrite Hr. cbn [rbind].
    eexists. split; [reflexivity|]. repeat split.
Qed.

Lemma weights_init_Linear_cases_witness :
  exists l',
    @weights_init sizes_only KLinear (nn.Linear 64 6) 6 = Ok l'
    /\ p_init (l_weight l') = normal_ 0 (2 / 6)
    /\ l_bias l' = l_bias (nn.Linear 64 6)
    /\ p_size (l_weight l') = p_size (l_weight (nn.Linear 64 6)).
Proof.
  apply (proj2 (proj2 (weights_init_Linear_cases (K := sizes_only)
                         (nn.Linear 64 6) 6))).
  reflexivity.
Defined.

(** ** Construction *)

(** X6.  [BilinearMapping.__init__] with at least one channel on each side
    and joint dimensions that are not negative (the sizes [np.random.rand]
    accepts) returns a module with as many subset convolutions as
    [num_subset], a graph parameter of size [num_subset, graph_dim1, graph_dim2], every
    subset convolution 1x1 from [in_channels] to [out_channels] with
    weights of variance [2 / (out_channels * in_channels * 1 * 3)] and
    zero bias, and a normalization layer whose weight is the constant
    [1e-6] and whose bias is 0. *)
Theorem BilinearMapping_init_invariants {K : Kernels} (cin cout g1 g2 : Z) :
  1 <= cin -> 1 <= cout -> 0 <= g1 -> 0 <= g2 ->
  exists m,
    BilinearMapping.__init__ cin cout g1 g2 = Ok m
    /\ Z.of_nat (List.length (BilinearMapping.g_conv m))
       = BilinearMapping.num_subset m
    /\ p_size (BilinearMapping.rand_graph m)
       = [BilinearMapping.num_subset m; g1; g2]
    /\ Forall (fun c =>
                 p_size (weight c) = [cout; cin; 1; 1]
                 /\ p_init (weight c)
                    = normal_ 0 (2 / (inject_Z (cout * cin * 1) * 3))
                 /\ p_init (bias c) = constant_ 0)
         (BilinearMapping.g_conv m)
    /\ p_init (bn_weight (BilinearMapping.bn m)) = constant_ (1 # 1000000)
    /\ p_init (bn_bias (BilinearMapping.bn m)) = constant_ 0.
Proof.
  intros Hi Ho Hg1 Hg2.
  rewrite (BilinearMapping_init_eq cin cout g1 g2 Hi Ho Hg1 Hg2).
  cbv zeta. eexists. split; [reflexivity|].
  cbn [BilinearMapping.g_conv BilinearMapping.num_subset
         BilinearMapping.rand_graph BilinearMapping.bn].
  split; [reflexivity|]. split; [reflexivity|].
  split; [|split; reflexivity].
  repeat constructor.
Qed.

Lemma BilinearMapping_init_invariants_witness :
  exists m,
    @BilinearMapping.__init__ sizes_only 2 8 51 51 = Ok m
    /\ Z.of_nat (List.length (BilinearMapping.g_conv m))
       = BilinearMapping.num_subset m
    /\ p_size (BilinearMapping.rand_graph m)
       = [BilinearMapping.num_subset m; 51; 51]
    /\ Forall (fun c =>
                 p_size (weight c) = [8; 2; 1; 1]
                 /\ p_init (weight c)
                    = normal_ 0 (2 / (inject_Z (8 * 2 * 1) * 3))
                 /\ p_init (bias c) = constant_ 0)
         (BilinearMapping.g_conv m)
    /\ p_init (bn_weight (BilinearMapping.bn m)) = constant_ (1 # 1000000)
    /\ p_init (bn_bias (BilinearMapping.bn m)) = constant_ 0.
Proof.
  apply (BilinearMapping_init_invariants (K := sizes_only) 2 8 51 51); lia.
Defined.

(** X7.  [STBLN.__init__] returns for every [num_class >= 1], and raises
    [ZeroDivisionError] for [num_class = 0]: the last statement of the
    constructor is [weights_init(self.fc, bs=num_class)], which divides by
    [bs]. *)
Theorem STBLN_init_num_class {K : Kernels}
  (num_class num_point num_person in_channels : Z) :
  1 <= num_point -> 1 <= num_person -> 1 <= in_channels ->
  (1 <= num_class ->
   exists m, STBLN.__init__ num_class num_point num_person in_channels = Ok m)
  /\ (num_class = 0 ->
      STBLN.__init__ num_class num_point num_person in_channels
      = Raise ZeroDivisionError).
Proof.
  intros HP _ _. unfold STBLN.__init__. cbv zeta.
  set (wfc := weights_init KLinear (nn.Linear 64 num_class)
                (inject_Z num_class)).
  cbn [weights_init rbind]. subst wfc.
  destruct (ST_BLN_block_init_ok 2 8 num_point num_point 1 false)
    as [b1 E1]; [lia | lia | lia | lia |].
  destruct (ST_BLN_block_init_ok 8 16 num_point num_point 1 true)
    as [b2 E2]; [lia | lia | lia | lia |].
  destruct (ST_BLN_block_init_ok 16 16 num_point num_point 1 true)
    as [b3 E3]; [lia | lia | lia | lia |].
  destruct (ST_BLN_block_init_ok 16 32 num_point num_point 1 true)
    as [b4 E4]; [lia | lia | lia | lia |].
  destruct (ST_BLN_block_init_ok 32 32 num_point num_point 1 true)
    as [b5 E5]; [lia | lia | lia | lia |].
  destruct (ST_BLN_block_init_ok 32 64 num_point num_point 1 true)
    as [b6 E6]; [lia | lia | lia | lia |].
  destruct (ST_BLN_block_init_ok 64 64 num_point num_point 1 true)
    as [b7 E7]; [lia | lia | lia | lia |].
  rewrite E1, E2, E3, E4, E5, E6, E7. cbn [rbind].
  split.
  - intros Hnc. rewrite weights_init_Linear_pos.
    + cbn [rbind]. eexists. reflexivity.
    + unfold Qlt. cbn. lia.
  - intros ->. reflexivity.
Qed.

Lemma STBLN_init_num_class_witness :
  (1 <= 6 -> exists m, @STBLN.__init__ sizes_only 6 51 1 2 = Ok m)
  /\ (6 = 0 -> @STBLN.__init__ sizes_only 6 51 1 2 = Raise ZeroDivisionError).
Proof.
  apply (STBLN_init_num_class (K := sizes_only) 6 51 1 2); lia.
Defined.

(** X8.  [weights_init(self.data_bn, bs=1)] has no effect: [data_bn] is a
    [BatchNorm1d], which no branch of [weights_init] matches, so it is the
    layer as the library constructed it, over
    [num_person * in_channels * num_point] features.  The classifier is
    [Linear(64, num_class)] with weights of variance [2 / num_class] and
    the bias of the library. *)
Theorem STBLN_init_leaves_data_bn {K : Kernels}
  (num_class num_point num_person in_channels : Z) (m : STBLN.t) :
  STBLN.__init__ num_class num_point num_person in_channels = Ok m ->
  STBLN.data_bn m = F.new_BatchNorm (num_person * in_channels * num_point)
  /\ map p_init (BatchNorm_parameters (STBLN.data_bn m))
     = [library_default; library_default]
  /\ p_init (l_weight (STBLN.fc m)) = normal_ 0 (2 / inject_Z num_class)
  /\ p_init (l_bias (STBLN.fc m)) = library_default
  /\ p_size (l_weight (STBLN.fc m)) = [num_class; 64].
Proof.
  unfold STBLN.__init__. cbn [weights_init rbind]. cbv zeta. intros H.
  do 7 (apply rbind_Ok_inv in H; destruct H as (? & _ & H)).
  apply rbind_Ok_inv in H. destruct H as (fc0 & Hfc & H).
  injection H as <-. cbn [STBLN.data_bn STBLN.fc].
  apply rbind_Ok_inv in Hfc. destruct Hfc as (q & Hq & Hfc).
  apply rbind_Ok_inv in Hfc. destruct Hfc as (r & Hr & Hfc).
  injection Hfc as <-.
  unfold truediv in Hq. destruct (Qeq_bool (inject_Z num_class) 0);
    [discriminate|]. injection Hq as <-.
  unfold math_sqrt_of in Hr. destruct (Qle_bool 0 (2 / inject_Z num_class));
    [|discriminate]. injection Hr as <-.
  repeat split.
Qed.

Lemma STBLN_init_leaves_data_bn_witness :
  STBLN.data_bn default_STBLN = F.new_BatchNorm (1 * 2 * 51)
  /\ map p_init (BatchNorm_parameters (STBLN.data_bn default_STBLN))
     = [library_default; library_default]
  /\ p_init (l_weight (STBLN.fc default_STBLN)) = normal_ 0 (2 / inject_Z 6)
  /\ p_init (l_bias (STBLN.fc default_STBLN)) = library_default
  /\ p_size (l_weight (STBLN.fc default_STBLN)) = [6; 64].
Proof.
  apply (STBLN_init_leaves_data_bn (K := sizes_only) 6 51 1 2 default_STBLN).
  reflexivity.
Defined.

(** X9.  The layers of a constructed [STBLN]: every key
    ['layer' + str(i + 1)] that the loop of [forward] asks for, with [i]
    in [range(len(self.layers))], is present; the blocks map
    2, 8, 16, 16, 32, 32, 64 channels to 8, 16, 16, 32, 32, 64, 64, each
    block taking what the one before returns and the classifier taking the
    64 channels of the last; only the first block has no residual
    module. *)
Theorem STBLN_init_layers {K : Kernels}
  (num_class num_point num_person in_channels : Z) (m : STBLN.t) :
  STBLN.__init__ num_class num_point num_person in_channels = Ok m ->
  (forall i, 0 <= i < Z.of_nat (List.length (STBLN.layers m)) ->
             exists b,
               lookup ("layer" ++ str (i + 1)) (STBLN.layers m) = Some b)
  /\ map (fun kv => block_in_channels (snd kv)) (STBLN.layers m)
     = [2; 8; 16; 16; 32; 32; 64]
  /\ map (fun kv => block_out_channels (snd kv)) (STBLN.layers m)
     = [8; 16; 16; 32; 32; 64; 64]
  /\ map (fun kv => has_residual_module (snd kv)) (STBLN.layers m)
     = [false; true; true; true; true; true; true]
  /\ in_features (STBLN.fc m) = 64.
Proof.
  unfold STBLN.__init__. cbn [weights_init rbind]. cbv zeta. intros H.
  apply rbind_Ok_inv in H. destruct H as (b1 & H1 & H).
  apply rbind_Ok_inv in H. destruct H as (b2 & H2 & H).
  apply rbind_Ok_inv in H. destruct H as (b3 & H3 & H).
  apply rbind_Ok_inv in H. destruct H as (b4 & H4 & H).
  apply rbind_Ok_inv in H. destruct H as (b5 & H5 & H).
  apply rbind_Ok_inv in H. destruct H as (b6 & H6 & H).
  apply rbind_Ok_inv in H. destruct H as (b7 & H7 & H).
  apply rbind_Ok_inv in H. destruct H as (fc0 & Hfc & H).
  injection H as <-. cbn [STBLN.layers STBLN.fc map snd List.length].
  apply rbind_Ok_inv in Hfc. destruct Hfc as (q & _ & Hfc).
  apply rbind_Ok_inv in Hfc. destruct Hfc as (r & _ & Hfc).
  injection Hfc as <-.
  apply block_init_channels in H1, H2, H3, H4, H5, H6, H7.
  destruct H1 as (I1 & O1 & R1), H2 as (I2 & O2 & R2), H3 as (I3 & O3 & R3),
    H4 as (I4 & O4 & R4), H5 as (I5 & O5 & R5), H6 as (I6 & O6 & R6),
    H7 as (I7 & O7 & R7).
  rewrite I1, I2, I3, I4, I5, I6, I7, O1, O2, O3, O4, O5, O6, O7,
    R1, R2, R3, R4, R5, R6, R7.
  split; [|repeat split].
  intros i Hi.
  assert (Hc : i = 0 \/ i = 1 \/ i = 2 \/ i = 3 \/ i = 4 \/ i = 5 \/ i = 6)
    by (cbn in Hi; lia).
  destruct Hc as [->|[->|[->|[->|[->|[->| ->]]]]]]; eexists; reflexivity.
Qed.

Lemma STBLN_init_layers_witness :
  (forall i, 0 <= i < Z.of_nat (List.length (STBLN.layers default_STBLN)) ->
             exists b,
               lookup ("layer" ++ str (i + 1)) (STBLN.layers default_STBLN)
               = Some b)
  /\ map (fun kv => block_in_channels (snd kv)) (STBLN.layers default_STBLN)
     = [2; 8; 16; 16; 32; 32; 64]
  /\ map (fun kv => block_out_channels (snd kv)) (STBLN.layers default_STBLN)
     = [8; 16; 16; 32; 32; 64; 64]
  /\ map (fun kv => has_residual_module (snd kv)) (STBLN.layers default_STBLN)
     = [false; true; true; true; true; true; true]
  /\ in_features (STBLN.fc default_STBLN) = 64.
Proof.
  apply (STBLN_init_layers (K := sizes_only) 6 51 1 2 default_STBLN).
  reflexivity.
Defined.

(** ** Sizes through strided and unequal layers *)

Section Strides.
Context {K : Kernels}.

(** Odd kernel [k], padding [(k - 1) quot 2], stride [s]: the length [i]
    becomes [(i - 1) / s + 1], the ceiling of [i / s]. *)
Lemma conv_out_strided (i k s : Z) :
  1 <= i -> 1 <= k -> Z.odd k = true -> 1 <= s ->
  F.conv_out i k (Z.quot (k - 1) 2) s = Some ((i - 1) / s + 1).
Proof.
  intros Hi Hk Hodd Hs. unfold F.conv_out.
  apply Z.odd_spec in Hodd. destruct Hodd as [m Hm].
  assert (Hq : Z.quot (k - 1) 2 = m).
  { rewrite Z.quot_div_nonneg by lia.
    replace (k - 1) with (m * 2) by lia. apply Z.div_mul. lia. }
  rewrite Hq.
  rewrite (proj2 (Z.ltb_lt 0 s)) by lia.
  rewrite (proj2 (Z.ltb_lt 0 k)) by lia.
  rewrite (proj2 (Z.leb_le k (i + 2 * m))) by lia.
  cbn [andb]. replace (i + 2 * m - k) with (i - 1) by lia. reflexivity.
Qed.

Lemma strided_length_bounds (t s : Z) :
  1 <= t -> 1 <= s -> 1 <= (t - 1) / s + 1 <= t.
Proof.
  intros Ht Hs. split.
  - pose proof (Z.div_pos (t - 1) s ltac:(lia) ltac:(lia)). lia.
  - assert ((t - 1) / s <= t - 1); [|lia].
    apply Z.div_le_upper_bound; [lia | nia].
Qed.

(** [TemporalConvolution.forward] of a freshly constructed module. *)
Lemma tcn_forward_strided (cin cout kj k s n t v : Z)
  (m : TemporalConvolution.t) (mode : bool) (x : Tensor) (g : gen) :
  TemporalConvolution.__init__ cin cout kj k s = Ok m ->
  1 <= s -> Z.odd k = true -> 1 <= k ->
  1 <= kj <= v -> 1 <= t ->
  size x = [n; cin; t; v] ->
  (mode = true -> n * ((t - 1) / s + 1) * (v - kj + 1) <> 1) ->
  exists m' y,
    TemporalConvolution.forward x (TemporalConvolution.train mode m) g
    = (m', g, Ok y)
    /\ size y = [n; cout; (t - 1) / s + 1; v - kj + 1].
Proof.
  intros Hm Hs Hodd Hk Hkj Ht Hx Hb.
  rewrite TemporalConvolution_init_eq in Hm. injection Hm as <-.
  unfold TemporalConvolution.forward.
  unfold bind at 1. unfold gets at 1.
  unfold bind at 1. unfold lift at 1.
  cbn [TemporalConvolution.train TemporalConvolution.t_conv
         TemporalConvolution.bn].
  erewrite Conv2d_forward_ok;
    [ | exact Hx | reflexivity
      | cbn [init_Conv2d nn.Conv2d padding stride fst snd];
        apply conv_out_strided; assumption
      | cbn [init_Conv2d nn.Conv2d padding stride fst snd];
        apply conv_out_valid; assumption ].
  unfold zoom at 1. unfold F.BatchNorm2d_forward.
  cbn [TemporalConvolution.bn].
  rewrite batch_norm_ok;
    [ | reflexivity
      | cbn [size F.size_prods fold_left F.train_BatchNorm bn_training];
        exact Hb
      | reflexivity ].
  do 2 eexists. split; reflexivity.
Qed.


End Strides.



(** X11.  A [TemporalConvolution] with stride [s] and an odd kernel height
    returns [(T - 1) / s + 1] time steps, the ceiling of [T / s], which
    lies between 1 and [T]; the joint axis shrinks by
    [kernel_size_joint - 1].  The module has at least one channel on each
    side and the input is not empty; the kernel height is at most [2 ^ 53],
    the range in which the float quotient of
    [int((kernel_size_ - 1) / 2)] is exact. *)
Theorem TemporalConvolution_stride_divides_time {K : Kernels}
  (cin cout kj k s n t v : Z) (m : TemporalConvolution.t) (mode : bool)
  (x : Tensor) (g : gen) :
  TemporalConvolution.__init__ cin cout kj k s = Ok m ->
  1 <= s -> Z.odd k = true -> 1 <= k <= 2 ^ 53 ->
  1 <= cin -> 1 <= cout ->
  1 <= kj <= v -> 1 <= n -> 1 <= t ->
  size x = [n; cin; t; v] ->
  (mode = true -> n * ((t - 1) / s + 1) * (v - kj + 1) <> 1) ->
  exists y,
    result_of (TemporalConvolution.forward x (TemporalConvolution.train mode m) g)
    = Ok y
    /\ size y = [n; cout; (t - 1) / s + 1; v - kj + 1]
    /\ 1 <= (t - 1) / s + 1 <= t.
Proof.
  intros Hm Hs Hodd [Hk _] _ _ Hkj _ Ht Hx Hb.
  destruct (tcn_forward_strided cin cout kj k s n t v m mode x g
              Hm Hs Hodd Hk Hkj Ht Hx Hb) as (m' & y & E & Sy).
  exists y. rewrite E. split; [reflexivity|]. split; [exact Sy|].
  apply strided_length_bounds; assumption.
Qed.

Lemma TemporalConvolution_stride_divides_time_witness :
  exists y,
    result_of (TemporalConvolution.forward (of_size [2; 8; 30; 25])
                 (TemporalConvolution.train true strided_tcn) 0%nat)
    = Ok y
    /\ size y = [2; 8; (30 - 1) / 2 + 1; 25 - 1 + 1]
    /\ 1 <= (30 - 1) / 2 + 1 <= 30.
Proof.
  apply (TemporalConvolution_stride_divides_time (K := sizes_only)
           8 8 1 9 2 2 30 25 strided_tcn true (of_size [2; 8; 30; 25]) 0%nat).
  - reflexivity.
  - lia.
  - reflexivity.
  - lia.
  - lia.
  - lia.
  - lia.
  - lia.
  - lia.
  - reflexivity.
  - intros _. vm_compute. discriminate.
Defined.





(** ** Inputs the layers refuse *)

Section Refusals.
Context {K : Kernels}.




End Refusals.

(** X14.  [STBLN.forward] on a tensor that is not 5-dimensional raises the
    [ValueError] of the unpacking [N, C, T, V, M = x.size()], and leaves
    the model and the generator as they were. *)
Theorem STBLN_forward_wrong_rank {K : Kernels} (m : STBLN.t) (x : Tensor)
  (g : gen) :
  List.length (size x) <> 5%nat ->
  STBLN.forward x m g = (m, g, Raise ValueError_unpack).
Proof.
  intros H. unfold STBLN.forward, bind, lift.
  destruct (size x) as [|a [|b [|c [|d [|e [|f s]]]]]]; cbn in H |- *;
    try reflexivity.
  contradiction.
Qed.

Lemma STBLN_forward_wrong_rank_witness :
  STBLN.forward (of_size [2; 2; 30; 51]) default_STBLN 0%nat
  = (default_STBLN, 0%nat, Raise ValueError_unpack).
Proof.
  apply (STBLN_forward_wrong_rank (K := sizes_only) default_STBLN
           (of_size [2; 2; 30; 51]) 0%nat).
  simpl. lia.
Defined.





(** X17.  A [TemporalConvolution] whose [kernel_size_joint] exceeds the
    number of joints of the input raises in the convolution (the joint
    axis is not padded) and leaves the module unchanged. *)
Theorem TemporalConvolution_joint_kernel_too_wide {K : Kernels}
  (cin cout kj k s n t v : Z) (m : TemporalConvolution.t) (mode : bool)
  (x : Tensor) (g : gen) :
  TemporalConvolution.__init__ cin cout kj k s = Ok m ->
  1 <= s -> 1 <= k ->
  size x = [n; cin; t; v] ->
  1 <= n -> 1 <= t ->
  1 <= v < kj ->
  TemporalConvolution.forward x (TemporalConvolution.train mode m) g
  = (TemporalConvolution.train mode m, g, Raise RuntimeError_conv2d_kernel).
Proof.
  intros Hm _ _ Hx _ _ Hv.
  rewrite TemporalConvolution_init_eq in Hm. injection Hm as <-.
  unfold TemporalConvolution.forward.
  unfold bind at 1. unfold gets at 1.
  unfold bind at 1. unfold lift at 1.
  cbn [TemporalConvolution.train TemporalConvolution.t_conv
         TemporalConvolution.bn].
  unfold F.Conv2d_forward. rewrite Hx.
  cbn [init_Conv2d nn.Conv2d with_init weight p_size padding stride fst snd].
  rewrite Z.eqb_refl.
  assert (E : F.conv_out v kj 0 1 = None).
  { unfold F.conv_out. rewrite (proj2 (Z.leb_gt kj (v + 2 * 0))) by lia.
    rewrite andb_false_r. reflexivity. }
  rewrite E. destruct (F.conv_out t k (Z.quot (k - 1) 2) s); reflexivity.
Qed.

Lemma TemporalConvolution_joint_kernel_too_wide_witness :
  TemporalConvolution.forward (of_size [2; 2; 30; 3])
    (TemporalConvolution.train true joint_tcn) 0%nat
  = (TemporalConvolution.train true joint_tcn, 0%nat,
     Raise RuntimeError_conv2d_kernel).
Proof.
  apply (TemporalConvolution_joint_kernel_too_wide (K := sizes_only)
           2 8 4 9 1 2 30 3 joint_tcn true (of_size [2; 2; 30; 3]) 0%nat).
  - reflexivity.
  - lia.
  - lia.
  - reflexivity.
  - lia.
  - lia.
  - lia.
Defined.





(** ** Where random numbers are drawn *)

Section Steady.
Context {K : Kernels}.













End Steady.

